(** * The condition block of [backend/blocks/branching.py]

    A shallow embedding of [ConditionBlock.run] and of the part of Python's
    object model it relies on, followed by the properties of the block.

    The value model.  The block receives JSON-like data: [None], [bool],
    [int], [float], [str], [list] and [dict] with string keys.  Every object
    but the singletons [None], [True] and [False] carries its identity
    ([id(obj)]): the comparison of the items of a list or of a mapping
    skips two items that are the same object.  The interpreter bounds the
    nesting of comparisons; the bound is a parameter of the comparison. *)

From stdpp Require Import gmap strings list fin_maps option.
From Stdlib Require Import ZArith SpecFloat.

#[local] Open Scope string_scope.
#[local] Open Scope Z_scope.

(** ** Python values *)

#[local] Set Warnings "-register-all".

(** A [str] is kept as the bytes of its UTF-8 encoding: byte-wise
    lexicographic order on UTF-8 is the code-point order Python uses.  A
    [float] is a zero, an infinity, NaN or a number [m * 2 ^ e] with its
    sign.  [id] is the identity of the object: two
    values with the same [id] stand for one object met twice. *)
Inductive value : Type :=
  | VNone
  | VBool (b : bool)
  | VInt (id : nat) (z : Z)
  | VFloat (id : nat) (f : spec_float)
  | VStr (id : nat) (s : string)
  | VList (id : nat) (l : list value)
  | VDict (id : nat) (d : gmap string value).

(** [x is None] *)
Definition is_None (v : value) : bool :=
  match v with VNone => true | _ => false end.

(** [x is y] *)
Definition is_same (v w : value) : bool :=
  match v, w with
  | VNone, VNone => true
  | VBool a, VBool b => Bool.eqb a b
  | VInt i _, VInt j _ => Nat.eqb i j
  | VFloat i _, VFloat j _ => Nat.eqb i j
  | VStr i _, VStr j _ => Nat.eqb i j
  | VList i _, VList j _ => Nat.eqb i j
  | VDict i _, VDict j _ => Nat.eqb i j
  | _, _ => false
  end.

(** [isinstance(x, list)] *)
Definition isinstance_list (v : value) : bool :=
  match v with VList _ _ => true | _ => false end.

(** A [float] that is NaN. *)
Definition is_nan (v : value) : bool :=
  match v with VFloat _ S754_nan => true | _ => false end.

(** [bool(x)], the truth value of an object. *)
Definition truthy (v : value) : bool :=
  match v with
  | VNone => false
  | VBool b => b
  | VInt _ z => negb (Z.eqb z 0)
  | VFloat _ f => match f with S754_zero _ => false | _ => true end
  | VStr _ s => negb (String.eqb s EmptyString)
  | VList _ l => negb (Nat.eqb (length l) 0)
  | VDict _ d => negb (Nat.eqb (size d) 0)
  end.

(** A size measure, used for induction through the nested containers. *)
Fixpoint vsize (v : value) : nat :=
  match v with
  | VList _ l => S (foldr (fun x acc => (vsize x + acc)%nat) 0%nat l)
  | VDict _ d => S (map_fold (fun _ x acc => (vsize x + acc)%nat) 0%nat d)
  | _ => 1%nat
  end.

(** How deep the containers of a value are nested: the number of
    comparisons that comparing it can nest inside the first one. *)
Fixpoint nesting (v : value) : nat :=
  match v with
  | VList _ l => foldr (fun x acc => Nat.max (S (nesting x)) acc) 0%nat l
  | VDict _ d =>
      map_fold (fun _ x acc => Nat.max (S (nesting x)) acc) 0%nat d
  | _ => 0%nat
  end.

(** No NaN anywhere in the value. *)
Fixpoint nan_free (v : value) : bool :=
  match v with
  | VFloat _ S754_nan => false
  | VList _ l => forallb nan_free l
  | VDict _ d => map_fold (fun _ x acc => nan_free x && acc) true d
  | _ => true
  end.

(** ** Exceptions *)

(** The subclasses of [Exception] the block's code can raise. *)
Inductive exn : Type := IndexError | KeyError | TypeError | RecursionError.

Inductive exc (A : Type) : Type :=
  | Ok (a : A)
  | Raise (e : exn).
Arguments Ok {A} a.
Arguments Raise {A} e.

#[export] Instance exc_ret : MRet exc := fun A a => Ok a.
#[export] Instance exc_bind : MBind exc := fun A B k m =>
  match m with
  | Ok a => k a
  | Raise e => Raise e
  end.

#[export] Instance exc_fmap : FMap exc := fun A B f m =>
  match m with
  | Ok a => Ok (f a)
  | Raise e => Raise e
  end.

(** ** Rich comparison *)

(** The six comparison opcodes of [PyObject_RichCompare]. *)
Inductive cmpop : Type := Py_LT | Py_LE | Py_EQ | Py_NE | Py_GT | Py_GE.

(** [Py_RETURN_RICHCOMPARE]: the answer of [op] from a three-way comparison. *)
Definition richcompare_of (op : cmpop) (c : comparison) : bool :=
  match op, c with
  | Py_EQ, Eq => true
  | Py_EQ, _ => false
  | Py_NE, Eq => false
  | Py_NE, _ => true
  | Py_LT, Lt => true
  | Py_LT, _ => false
  | Py_LE, Gt => false
  | Py_LE, _ => true
  | Py_GT, Gt => true
  | Py_GT, _ => false
  | Py_GE, Lt => false
  | Py_GE, _ => true
  end.

(** What [do_richcompare] does once both operands' type slots have declined:
    [==] and [!=] fall back on object identity, the ordering operators raise
    [TypeError].  [same] says whether the two operands are the same object. *)
Definition default_richcompare (op : cmpop) (same : bool) : exc bool :=
  match op with
  | Py_EQ => Ok same
  | Py_NE => Ok (negb same)
  | _ => Raise TypeError
  end.

(** [PyLong_Check]: [bool] is a subclass of [int], with [True == 1]. *)
Definition as_long (v : value) : option Z :=
  match v with
  | VBool b => Some (Z.b2z b)
  | VInt _ z => Some z
  | _ => None
  end.

Definition long_richcompare (op : cmpop) (a b : Z) : bool :=
  richcompare_of op (a ?= b).

Definition unicode_richcompare (op : cmpop) (s t : string) : bool :=
  richcompare_of op (String.compare s t).

(** The answer of [op] on two numbers of which one is a [float]: [None] is
    the unordered outcome of IEEE 754, when an operand is NaN; every
    operator but [!=] is then false. *)
Definition float_richcompare_of (op : cmpop) (c : option comparison) : bool :=
  match c with
  | Some c => richcompare_of op c
  | None => match op with Py_NE => true | _ => false end
  end.

(** The number a finite [float] is, as a pair [(v, e)] standing for
    [v * 2 ^ e]; both zeros are the number 0. *)
Definition float_scaled (f : spec_float) : Z * Z :=
  match f with
  | S754_finite s m e => (if s then Z.neg m else Z.pos m, e)
  | _ => (0, 0)
  end.

(** [float_richcompare] on two floats: the order of the numbers they are,
    with the infinities at the two ends; NaN is unordered. *)
Definition float_compare (f g : spec_float) : option comparison :=
  match f, g with
  | S754_nan, _ | _, S754_nan => None
  | S754_infinity s, S754_infinity t =>
      Some (if s then (if t then Eq else Lt) else (if t then Gt else Eq))
  | S754_infinity s, _ => Some (if s then Lt else Gt)
  | _, S754_infinity t => Some (if t then Gt else Lt)
  | _, _ =>
      let (v, e) := float_scaled f in
      let (w, e') := float_scaled g in
      let k := Z.min e e' in
      Some (v * 2 ^ (e - k) ?= w * 2 ^ (e' - k))
  end.

(** A [float] against an [int], compared as the exact numbers they are. *)
Definition float_long_compare (f : spec_float) (z : Z) : option comparison :=
  match f with
  | S754_nan => None
  | S754_infinity s => Some (if s then Lt else Gt)
  | S754_zero _ => Some (0 ?= z)
  | S754_finite s m e =>
      let v := if s then Z.neg m else Z.pos m in
      Some (if 0 <=? e then (v * 2 ^ e ?= z) else (v ?= z * 2 ^ (- e)))
  end.

Definition long_float_compare (z : Z) (f : spec_float) : option comparison :=
  CompOpp <$> float_long_compare f z.

Section Containers.
(** The comparison of two items, [PyObject_RichCompare] entered from inside
    a comparison. *)
Variable item_compare : cmpop -> value -> value -> exc bool.

(** [PyObject_RichCompareBool(x, y, Py_EQ)]: the same object is equal to
    itself without being compared. *)
Definition item_equal (x y : value) : exc bool :=
  if is_same x y then Ok true else item_compare Py_EQ x y.

(** [list_richcompare], after the length short cut: look for the first
    index where the items differ; [vlen] and [wlen] are the lengths of
    the whole lists. *)
Fixpoint list_first_difference (op : cmpop) (vlen wlen : nat)
    (vl wl : list value) {struct vl} : exc bool :=
  match vl, wl with
  | vitem :: vl', witem :: wl' =>
      k ← item_equal vitem witem;
      if (k : bool) then list_first_difference op vlen wlen vl' wl'
      else match op with
           | Py_EQ => Ok false
           | Py_NE => Ok true
           | _ => item_compare op vitem witem
           end
  | _, _ => Ok (richcompare_of op (Nat.compare vlen wlen))
  end.

Definition list_richcompare (op : cmpop) (vl wl : list value) : exc bool :=
  let vlen := length vl in
  let wlen := length wl in
  match op with
  | Py_EQ => if negb (Nat.eqb vlen wlen) then Ok false
             else list_first_difference op vlen wlen vl wl
  | Py_NE => if negb (Nat.eqb vlen wlen) then Ok true
             else list_first_difference op vlen wlen vl wl
  | _ => list_first_difference op vlen wlen vl wl
  end.

(** [dict_equal]: same number of entries, and every key of [a] is a key
    of [b] with an equal value; the first unequal entry ends the loop.
    Python visits the entries of [a] in the order of insertion, which a
    [gmap] does not record: the entries are visited in the order of the
    fold.  The order decides nothing but which of two entries is met first
    when one is unequal and the other too deep to be compared. *)
Definition dict_equal (a b : gmap string value) : exc bool :=
  if negb (Nat.eqb (size a) (size b)) then Ok false
  else map_fold (fun key aval rest =>
                   match b !! key with
                   | None => Ok false
                   | Some bval =>
                       cmp ← item_equal aval bval;
                       if (cmp : bool) then rest else Ok false
                   end) (Ok true) a.
End Containers.

(** [PyObject_RichCompare(v, w, op)], once entered.  [depth] is the number
    of comparisons the interpreter still lets this one nest
    ([Py_EnterRecursiveCall]): comparing two items at depth 0 raises
    [RecursionError].  The type slots of the modelled types decline exactly
    when the other operand is not of their own type (a number, for a
    number), so the reflected attempt declines as well and
    [default_richcompare] decides; two objects of different types are never
    the same object, and [None] is a singleton. *)
Fixpoint richcompare (depth : nat) (op : cmpop) (v w : value) {struct v}
    : exc bool :=
  let nested := fun o x y =>
    match depth with
    | O => Raise RecursionError
    | S d => richcompare d o x y
    end in
  match v with
  | VNone => default_richcompare op (is_None w)
  | VBool a =>
      match as_long w with
      | Some b => Ok (long_richcompare op (Z.b2z a) b)
      | None =>
          match w with
          | VFloat _ g =>
              Ok (float_richcompare_of op (long_float_compare (Z.b2z a) g))
          | _ => default_richcompare op false
          end
      end
  | VInt _ a =>
      match as_long w with
      | Some b => Ok (long_richcompare op a b)
      | None =>
          match w with
          | VFloat _ g => Ok (float_richcompare_of op (long_float_compare a g))
          | _ => default_richcompare op false
          end
      end
  | VFloat _ f =>
      match as_long w with
      | Some b => Ok (float_richcompare_of op (float_long_compare f b))
      | None =>
          match w with
          | VFloat _ g => Ok (float_richcompare_of op (float_compare f g))
          | _ => default_richcompare op false
          end
      end
  | VStr _ s =>
      match w with
      | VStr _ t => Ok (unicode_richcompare op s t)
      | _ => default_richcompare op false
      end
  | VList _ vl =>
      match w with
      | VList _ wl => list_richcompare nested op vl wl
      | _ => default_richcompare op false
      end
  | VDict _ a =>
      match w with
      | VDict _ b =>
          match op with
          | Py_EQ => dict_equal nested a b
          | Py_NE => negb <$> dict_equal nested a b
          | _ => default_richcompare op false
          end
      | _ => default_richcompare op false
      end
  end.

(** [PyObject_RichCompare] entered from inside a comparison running at
    [depth]. *)
Definition nested_richcompare (depth : nat) (op : cmpop) (x y : value)
    : exc bool :=
  match depth with
  | O => Raise RecursionError
  | S d => richcompare d op x y
  end.

(** ** Generators *)

(** A generator body: the pairs it has yielded so far, and how it went on
    (a value, or an exception that leaves the body). *)
Definition gen (A : Type) : Type := (list (string * value) * exc A)%type.

#[export] Instance gen_ret : MRet gen := fun A a => ([], Ok a).
#[export] Instance gen_bind : MBind gen := fun A B k m =>
  match m.2 with
  | Ok a => ((m.1 ++ (k a).1)%list, (k a).2)
  | Raise e => (m.1, Raise e)
  end.

(** [yield name, v] *)
Definition yield_ (name : string) (v : value) : gen unit :=
  ([(name, v)], Ok tt).

(** An expression evaluated inside a generator body. *)
Definition eval {A} (m : exc A) : gen A := ([], m).

(** [try: body except Exception: handler].  What [body] yielded before it
    raised stays yielded; every modelled exception derives from
    [Exception]. *)
Definition try_except {A} (body : gen A) (handler : gen A) : gen A :=
  match body.2 with
  | Ok a => body
  | Raise _ => ((body.1 ++ handler.1)%list, handler.2)
  end.

(** ** The block *)

Inductive ComparisonOperator : Type :=
  | EQUAL
  | NOT_EQUAL
  | GREATER_THAN
  | LESS_THAN
  | GREATER_THAN_OR_EQUAL
  | LESS_THAN_OR_EQUAL.

#[export] Instance ComparisonOperator_eq_dec : EqDecision ComparisonOperator.
Proof. solve_decision. Defined.

Definition operator_code (op : ComparisonOperator) : nat :=
  match op with
  | EQUAL => 0
  | NOT_EQUAL => 1
  | GREATER_THAN => 2
  | LESS_THAN => 3
  | GREATER_THAN_OR_EQUAL => 4
  | LESS_THAN_OR_EQUAL => 5
  end%nat.

Definition operator_of_code (n : nat) : option ComparisonOperator :=
  match n with
  | 0 => Some EQUAL
  | 1 => Some NOT_EQUAL
  | 2 => Some GREATER_THAN
  | 3 => Some LESS_THAN
  | 4 => Some GREATER_THAN_OR_EQUAL
  | 5 => Some LESS_THAN_OR_EQUAL
  | _ => None
  end%nat.

#[export] Instance ComparisonOperator_countable : Countable ComparisonOperator.
Proof.
  apply (inj_countable operator_code operator_of_code).
  intros []; reflexivity.
Defined.

(** [op.value], the label each member is declared with. *)
Definition ComparisonOperator_value (op : ComparisonOperator) : string :=
  match op with
  | EQUAL => "=="
  | NOT_EQUAL => "!="
  | GREATER_THAN => ">"
  | LESS_THAN => "<"
  | GREATER_THAN_OR_EQUAL => ">="
  | LESS_THAN_OR_EQUAL => "<="
  end.

(** [list(ComparisonOperator)]: the members in the order of declaration. *)
Definition ComparisonOperator_members : list ComparisonOperator :=
  [EQUAL; NOT_EQUAL; GREATER_THAN; LESS_THAN;
   GREATER_THAN_OR_EQUAL; LESS_THAN_OR_EQUAL].

(** [ComparisonOperator(label)]: the first member declared with that value;
    no such member is a [ValueError], here [None]. *)
Definition ComparisonOperator_call (label : string)
    : option ComparisonOperator :=
  List.find (fun member => String.eqb (ComparisonOperator_value member) label)
            ComparisonOperator_members.

(** [ConditionBlock.Input].  The fields with [default=None] are optional;
    [yes_value] and [no_value] are of type [Any], so their [None] is the
    value [VNone]. *)
Record Input : Type := {
  input_object : value;
  value1_key : option string;
  value2_key : option string;
  value1_index : option Z;
  value2_index : option Z;
  operator : ComparisonOperator;
  yes_value : value;
  no_value : value;
  passthrough : bool
}.

(** [obj.get(key)] on a mapping with string keys: [None] is never one of
    its keys. *)
Definition dict_get (d : gmap string value) (key : option string) : value :=
  match key with
  | Some k => default VNone (d !! k)
  | None => VNone
  end.

(** [obj[index]] on a list: a negative index counts from the end, an index
    outside the list raises [IndexError]. *)
Definition list_getitem (l : list value) (index : Z) : exc value :=
  let n := Z.of_nat (length l) in
  let i := if index <? 0 then index + n else index in
  if (0 <=? i) && (i <? n) then
    match l !! Z.to_nat i with
    | Some v => Ok v
    | None => Raise IndexError
    end
  else Raise IndexError.

(** [0 <= index < len(obj)] behind [index is not None]. *)
Definition index_usable (l : list value) (index : option Z) : option Z :=
  match index with
  | Some i => if (0 <=? i) && (i <? Z.of_nat (length l)) then Some i else None
  | None => None
  end.

Definition get_value (obj : value) (key : option string) (index : option Z)
    : exc value :=
  match obj with
  | VDict _ d => Ok (dict_get d key)
  | VList _ l =>
      match index_usable l index with
      | Some i => list_getitem l i
      | None =>
          match key with
          | Some _ =>
              first ← list_getitem l 0;
              match first with
              | VDict _ d0 => Ok (dict_get d0 key)
              | _ => Ok VNone
              end
          | None => Ok obj
          end
      end
  | _ => Ok obj
  end.

(** Lines 106-111: the two operands. *)
Definition operands (input_data : Input) : exc (value * value) :=
  let obj := input_object input_data in
  if isinstance_list obj then
    value1 ← get_value obj (value1_key input_data) (value1_index input_data);
    value2 ← get_value obj (value2_key input_data) (value2_index input_data);
    Ok (value1, value2)
  else
    value1 ← get_value obj (value1_key input_data) None;
    value2 ← get_value obj (value2_key input_data) None;
    Ok (value1, value2).

(** The six lambdas.  [depth] belongs to the interpreter that evaluates
    them: the number of comparisons it still lets [a == b] and the others
    nest when the lambda is called. *)
Definition comparison_funcs (depth : nat)
    : gmap ComparisonOperator (value -> value -> exc bool) :=
  {[ EQUAL := fun a b => richcompare depth Py_EQ a b;
     NOT_EQUAL := fun a b => richcompare depth Py_NE a b;
     GREATER_THAN := fun a b => richcompare depth Py_GT a b;
     LESS_THAN := fun a b => richcompare depth Py_LT a b;
     GREATER_THAN_OR_EQUAL := fun a b => richcompare depth Py_GE a b;
     LESS_THAN_OR_EQUAL := fun a b => richcompare depth Py_LE a b ]}.

(** [comparison_funcs[operator]]: a missing key raises [KeyError]. *)
Definition dict_getitem {K} `{Countable K} {V} (d : gmap K V) (k : K) : exc V :=
  match d !! k with
  | Some v => Ok v
  | None => Raise KeyError
  end.

(** [comparison_funcs[operator](value1, value2)] *)
Definition compare (depth : nat) (op : ComparisonOperator) (a b : value)
    : exc bool :=
  f ← dict_getitem (comparison_funcs depth) op;
  f a b.

(** Lines 126-129: the value of [output]. *)
Definition select_output (input_data : Input) (value1 : value) (result : bool)
    : value :=
  if result then
    if passthrough input_data then input_object input_data
    else if negb (is_None (yes_value input_data)) then yes_value input_data
         else value1
  else
    if passthrough input_data then input_object input_data
    else if negb (is_None (no_value input_data)) then no_value input_data
         else value1.

(** The body of the [try] statement. *)
Definition try_body (depth : nat) (input_data : Input)
    (value1 value2 : value) : gen unit :=
  result ← eval (compare depth (operator input_data) value1 value2);
  _ ← yield_ "result" (VBool result);
  yield_ "output" (select_output input_data value1 result).

Definition except_body : gen unit :=
  _ ← yield_ "result" VNone;
  yield_ "output" VNone.

(** [run], in an interpreter that lets the comparison nest [depth]
    comparisons. *)
Definition run (depth : nat) (input_data : Input) : gen unit :=
  '(value1, value2) ← eval (operands input_data);
  try_except (try_body depth input_data value1 value2) except_body.

(** [test_input] and [test_output] of [__init__].  The operator is given by
    its label, [ComparisonOperator.GREATER_THAN.value], and becomes a member
    again when the input schema is filled in; the fields the dictionary
    leaves out take their default, [None].  The two literals ["Greater"]
    are one constant of [__init__], hence one object. *)
Definition test_input : option Input :=
  op ← ComparisonOperator_call (ComparisonOperator_value GREATER_THAN);
  Some {| input_object := VDict 1 {[ "value1" := VInt 2 10;
                                          "value2" := VInt 3 5 ]};
          value1_key := Some "value1";
          value2_key := Some "value2";
          value1_index := None;
          value2_index := None;
          operator := op;
          yes_value := VStr 4 "Greater";
          no_value := VStr 5 "Not greater";
          passthrough := false |}.

Definition test_output : list (string * value) :=
  [("result", VBool true); ("output", VStr 4 "Greater")].

(** * Properties *)

(** ** The value model *)

Lemma vsize_list_item (id : nat) (l : list value) (x : value) :
  x ∈ l -> (vsize x < vsize (VList id l))%nat.
Proof.
  simpl. induction 1 as [x l | x y l _ IH]; simpl; lia.
Qed.

Lemma vsize_dict_item (id : nat) (d : gmap string value) (k : string)
    (x : value) :
  d !! k = Some x -> (vsize x < vsize (VDict id d))%nat.
Proof.
  intros Hk. simpl.
  rewrite (map_fold_delete_L _ _ k x d); [lia | | exact Hk].
  intros; lia.
Qed.

(** Induction on values through both containers. *)
Lemma value_nested_ind (P : value -> Prop) :
  P VNone ->
  (forall b, P (VBool b)) ->
  (forall id z, P (VInt id z)) ->
  (forall id f, P (VFloat id f)) ->
  (forall id s, P (VStr id s)) ->
  (forall id l, Forall P l -> P (VList id l)) ->
  (forall id d, map_Forall (fun _ x => P x) d -> P (VDict id d)) ->
  forall v, P v.
Proof.
  intros HNone HBool HInt HFloat HStr HList HDict v.
  remember (vsize v) as n eqn:Hn.
  revert v Hn. induction n as [n IH] using lt_wf_ind. intros v ->.
  destruct v as [ | b | id z | id f | id s | id l | id d]; auto.
  - apply HList, list.Forall_forall. intros x Hx.
    apply (IH (vsize x)); [by apply vsize_list_item | done].
  - apply HDict. intros k x Hk.
    apply (IH (vsize x)); [by apply (vsize_dict_item id d k) | done].
Qed.

Lemma nesting_list_item (id : nat) (l : list value) (x : value) :
  x ∈ l -> (S (nesting x) <= nesting (VList id l))%nat.
Proof.
  simpl. induction 1 as [x l | x y l _ IH]; simpl; lia.
Qed.

Lemma nesting_dict_item (id : nat) (d : gmap string value) (k : string)
    (x : value) :
  d !! k = Some x -> (S (nesting x) <= nesting (VDict id d))%nat.
Proof.
  intros Hk. simpl.
  rewrite (map_fold_delete_L _ _ k x d); [lia | | exact Hk].
  intros; lia.
Qed.

Lemma nan_free_list_item (id : nat) (l : list value) (x : value) :
  nan_free (VList id l) = true -> x ∈ l -> nan_free x = true.
Proof.
  simpl. intros Hl Hx. induction Hx as [x l | x y l _ IH]; simpl in Hl;
    apply andb_true_iff in Hl as [Hy Hl]; auto.
Qed.

Lemma nan_free_dict_item (id : nat) (d : gmap string value) (k : string)
    (x : value) :
  nan_free (VDict id d) = true -> d !! k = Some x -> nan_free x = true.
Proof.
  simpl. intros Hd Hk.
  rewrite (map_fold_delete_L _ _ k x d) in Hd; [ | | exact Hk].
  - by apply andb_true_iff in Hd as [Hx _].
  - intros j1 j2 z1 z2 y _ _ _.
    by destruct (nan_free z1), (nan_free z2).
Qed.

Lemma is_same_refl (v : value) : is_same v v = true.
Proof.
  destruct v as [ | [] | | | | | ]; simpl; try done; apply Nat.eqb_refl.
Qed.

Lemma is_same_sym (v w : value) : is_same w v = is_same v w.
Proof.
  destruct v as [ | [] | | | | | ], w as [ | [] | | | | | ]; simpl;
    try done; apply Nat.eqb_sym.
Qed.

(** ** Opposite and mirrored opcodes *)

(** The opcode that answers the opposite: [<] and [>=], [<=] and [>],
    [==] and [!=]. *)
Definition cmpop_negate (op : cmpop) : cmpop :=
  match op with
  | Py_LT => Py_GE
  | Py_LE => Py_GT
  | Py_EQ => Py_NE
  | Py_NE => Py_EQ
  | Py_GT => Py_LE
  | Py_GE => Py_LT
  end.

(** The opcode of the reflected operation ([_Py_SwappedOp]). *)
Definition cmpop_swap (op : cmpop) : cmpop :=
  match op with
  | Py_LT => Py_GT
  | Py_LE => Py_GE
  | Py_EQ => Py_EQ
  | Py_NE => Py_NE
  | Py_GT => Py_LT
  | Py_GE => Py_LE
  end.

Definition cmpop_ordering (op : cmpop) : bool :=
  match op with
  | Py_EQ | Py_NE => false
  | _ => true
  end.

Definition exc_raised {A} (m : exc A) : bool :=
  match m with Ok _ => false | Raise _ => true end.


Lemma richcompare_of_negate (op : cmpop) (c : comparison) :
  richcompare_of (cmpop_negate op) c = negb (richcompare_of op c).
Proof. by destruct op, c. Qed.

Lemma richcompare_of_swap (op : cmpop) (c : comparison) :
  richcompare_of (cmpop_swap op) (CompOpp c) = richcompare_of op c.
Proof. by destruct op, c. Qed.


Lemma float_richcompare_of_negate (op : cmpop) (c : comparison) :
  float_richcompare_of (cmpop_negate op) (Some c)
  = negb (float_richcompare_of op (Some c)).
Proof. apply richcompare_of_negate. Qed.

Lemma float_richcompare_of_swap (op : cmpop) (c : option comparison) :
  float_richcompare_of (cmpop_swap op) (CompOpp <$> c)
  = float_richcompare_of op c.
Proof. destruct c as [c | ]; [apply richcompare_of_swap | by destruct op]. Qed.

Lemma default_richcompare_negate (op : cmpop) (same : bool) :
  default_richcompare (cmpop_negate op) same
  = negb <$> default_richcompare op same.
Proof. by destruct op, same. Qed.

Lemma default_richcompare_swap (op : cmpop) (same : bool) :
  default_richcompare (cmpop_swap op) same = default_richcompare op same.
Proof. by destruct op. Qed.

Lemma exc_fmap_negb_negb (m : exc bool) : negb <$> (negb <$> m) = m.
Proof. destruct m as [[] | e]; done. Qed.

Lemma string_compare_refl (s : string) : String.compare s s = Eq.
Proof.
  pose proof (String.compare_antisym s s) as H.
  by destruct (String.compare s s).
Qed.

(** The comparison of two floats, read in the other direction. *)
Lemma float_compare_antisym (f g : spec_float) :
  float_compare g f = CompOpp <$> float_compare f g.
Proof.
  assert (forall v e w e',
            (w * 2 ^ (e' - Z.min e' e) ?= v * 2 ^ (e - Z.min e' e))
            = CompOpp (v * 2 ^ (e - Z.min e e') ?= w * 2 ^ (e' - Z.min e e')))
    as Hfinite.
  { intros v e w e'. rewrite (Z.min_comm e' e). apply Z.compare_antisym. }
  destruct f as [s | s | | s m e], g as [t | t | | t n e'];
    try done; try (by destruct s); try (by destruct t);
    try (by destruct s, t);
    unfold float_compare, float_scaled; cbn [fmap option_fmap option_map];
    apply f_equal, Hfinite.
Qed.

Lemma float_compare_refl (f : spec_float) :
  float_compare f f = match f with S754_nan => None | _ => Some Eq end.
Proof.
  destruct f as [s | s | | s m e]; try done; try (by destruct s).
  unfold float_compare, float_scaled. by rewrite Z.compare_refl.
Qed.

Lemma float_compare_defined (f g : spec_float) :
  f <> S754_nan -> g <> S754_nan ->
  exists c, float_compare f g = Some c.
Proof.
  intros Hf Hg.
  destruct f as [s | s | | s m e], g as [t | t | | t n e']; try done;
    unfold float_compare; simpl; eauto.
Qed.

Lemma float_long_compare_None (f : spec_float) (z : Z) :
  float_long_compare f z = None -> f = S754_nan.
Proof. by destruct f. Qed.

(** ** Comparison of containers *)

Section ContainerEquality.
Variable item_compare : cmpop -> value -> value -> exc bool.



Lemma list_first_difference_defined (vlen wlen : nat) (vl wl : list value) :
  (forall x y, x ∈ vl -> y ∈ wl ->
               exists r, item_compare Py_EQ x y = Ok r) ->
  exists r, list_first_difference item_compare Py_EQ vlen wlen vl wl = Ok r.
Proof.
  revert wl. induction vl as [ | vitem vl IH]; intros wl Hdef.
  - by eexists.
  - destruct wl as [ | witem wl]; simpl; [by eexists | ].
    unfold item_equal. destruct (is_same vitem witem); simpl.
    + apply IH. intros x y Hx Hy. apply Hdef; by constructor.
    + destruct (Hdef vitem witem) as [[] Hr]; [by left | by left | | ];
        rewrite Hr; simpl; [ | by eexists].
      apply IH. intros x y Hx Hy. apply Hdef; by constructor.
Qed.

Lemma list_richcompare_defined (vl wl : list value) :
  (forall x y, x ∈ vl -> y ∈ wl ->
               exists r, item_compare Py_EQ x y = Ok r) ->
  exists r, list_richcompare item_compare Py_EQ vl wl = Ok r.
Proof.
  intros Hdef. unfold list_richcompare.
  destruct (negb (length vl =? length wl)%nat); [by eexists | ].
  by apply list_first_difference_defined.
Qed.

(** What [dict_equal] answers when the comparison of its entries
    returns. *)
Lemma dict_equal_true (a b : gmap string value) :
  (forall k x y, a !! k = Some x -> b !! k = Some y ->
                 exists r, item_compare Py_EQ x y = Ok r) ->
  (exists r, dict_equal item_compare a b = Ok r) /\
  (dict_equal item_compare a b = Ok true <->
   size a = size b /\
   map_Forall (fun k x => exists y,
                 b !! k = Some y /\ item_equal item_compare x y = Ok true) a).
Proof.
  unfold dict_equal.
  destruct (Nat.eqb_spec (size a) (size b)) as [Hsize | Hsize]; simpl;
    [ | intros _; split; [by eexists | by split; [ | intros [? _]]]].
  intros Hdef.
  enough ((exists r,
             map_fold (fun key aval rest =>
                         match b !! key with
                         | None => Ok false
                         | Some bval =>
                             cmp ← item_equal item_compare aval bval;
                             if (cmp : bool) then rest else Ok false
                         end) (Ok true) a = Ok r) /\
          (map_fold (fun key aval rest =>
                       match b !! key with
                       | None => Ok false
                       | Some bval =>
                           cmp ← item_equal item_compare aval bval;
                           if (cmp : bool) then rest else Ok false
                       end) (Ok true) a = Ok true <->
           map_Forall (fun k x => exists y,
                         b !! k = Some y /\
                         item_equal item_compare x y = Ok true) a))
    as [Hret Hfold]
    by (split; [done | rewrite Hfold; by split; [ | intros [_ ?]]]).
  clear Hsize. revert a Hdef.
  apply (map_fold_weak_ind (fun res m =>
    (forall k x y, m !! k = Some x -> b !! k = Some y ->
                   exists r, item_compare Py_EQ x y = Ok r) ->
    (exists r, res = Ok r) /\
    (res = Ok true <->
     map_Forall (fun k x => exists y,
                   b !! k = Some y /\
                   item_equal item_compare x y = Ok true) m))).
  - intros _. split; [by eexists | ].
    split; [intros _; apply map_Forall_empty | done].
  - intros key aval m rest Hfresh IH Hdef.
    destruct IH as [[r Hr] IH].
    { intros k x y Hx. apply Hdef. rewrite lookup_insert_ne; [done | ].
      intros ->. congruence. }
    rewrite map_Forall_insert by done.
    destruct (b !! key) as [bval | ] eqn:Hb.
    + assert (exists c, item_equal item_compare aval bval = Ok c) as [c Hc].
      { unfold item_equal. destruct (is_same aval bval); [by eexists | ].
        apply (Hdef key); [apply lookup_insert_eq | done]. }
      rewrite Hc. simpl. destruct c.
      * split; [by eexists | ]. rewrite IH.
        split; [eauto | by intros [_ ?]].
      * split; [by eexists | ].
        split; [done | ]. intros [(y & [= <-] & Hy) _]. congruence.
    + split; [by eexists | ]. split; [done | ]. by intros [(y & ? & _) _].
Qed.

Lemma list_first_difference_swap (op : cmpop) (vlen wlen : nat)
    (vl wl : list value) :
  (forall x y o, x ∈ vl -> y ∈ wl ->
                 item_compare (cmpop_swap o) y x = item_compare o x y) ->
  list_first_difference item_compare (cmpop_swap op) wlen vlen wl vl
  = list_first_difference item_compare op vlen wlen vl wl.
Proof.
  revert wl. induction vl as [ | vitem vl IH]; intros wl Hitem.
  - destruct wl; simpl;
      rewrite (Nat.compare_antisym vlen wlen); by rewrite richcompare_of_swap.
  - destruct wl as [ | witem wl]; simpl.
    + rewrite (Nat.compare_antisym vlen wlen). by rewrite richcompare_of_swap.
    + unfold item_equal. rewrite (is_same_sym vitem witem).
      pose proof (Hitem vitem witem Py_EQ) as Heq. simpl in Heq.
      rewrite Heq by by left.
      assert (list_first_difference item_compare (cmpop_swap op)
                wlen vlen wl vl
              = list_first_difference item_compare op vlen wlen vl wl)
        as Hrest.
      { apply IH. intros x y o Hx Hy. apply Hitem; by constructor. }
      pose proof (Hitem vitem witem op) as Hop.
      destruct (is_same vitem witem); simpl; [done | ].
      destruct (item_compare Py_EQ vitem witem) as [[] | e]; simpl;
        [done | | done].
      destruct op; simpl in *; try done; apply Hop; by left.
Qed.

Lemma list_richcompare_swap (op : cmpop) (vl wl : list value) :
  (forall x y o, x ∈ vl -> y ∈ wl ->
                 item_compare (cmpop_swap o) y x = item_compare o x y) ->
  list_richcompare item_compare (cmpop_swap op) wl vl
  = list_richcompare item_compare op vl wl.
Proof.
  intros Hvl. unfold list_richcompare.
  rewrite (Nat.eqb_sym (length wl) (length vl)).
  pose proof (list_first_difference_swap
                op (length vl) (length wl) vl wl Hvl) as Hloop.
  by destruct op; simpl in *;
    try destruct (negb (length vl =? length wl)%nat).
Qed.

Lemma list_first_difference_refl (vlen : nat) (vl : list value) :
  list_first_difference item_compare Py_EQ vlen vlen vl vl = Ok true.
Proof.
  induction vl as [ | vitem vl IH]; simpl.
  - by rewrite Nat.compare_refl.
  - unfold item_equal. by rewrite is_same_refl.
Qed.

Lemma dict_equal_refl (a : gmap string value) :
  dict_equal item_compare a a = Ok true.
Proof.
  unfold dict_equal. rewrite Nat.eqb_refl. simpl.
  enough (forall m : gmap string value,
            (forall k x, m !! k = Some x -> a !! k = Some x) ->
            map_fold (fun key aval rest =>
                        match a !! key with
                        | None => Ok false
                        | Some bval =>
                            cmp ← item_equal item_compare aval bval;
                            if (cmp : bool) then rest else Ok false
                        end) (Ok true) m = Ok true) as Hfold
    by by apply Hfold.
  apply (map_fold_weak_ind (fun res m =>
           (forall k x, m !! k = Some x -> a !! k = Some x) ->
           res = Ok true)).
  - done.
  - intros key aval m rest Hfresh IH Hsub.
    rewrite (Hsub key aval) by apply lookup_insert_eq.
    unfold item_equal. rewrite is_same_refl. simpl.
    apply IH. intros k x Hx. apply Hsub.
    rewrite lookup_insert_ne; [done | ]. intros ->. congruence.
Qed.

Lemma list_first_difference_negate (op : cmpop) (vlen wlen : nat)
    (vl wl : list value) :
  (forall x y o, x ∈ vl -> y ∈ wl ->
                 item_compare (cmpop_negate o) x y
                 = negb <$> item_compare o x y) ->
  list_first_difference item_compare (cmpop_negate op) vlen wlen vl wl
  = negb <$> list_first_difference item_compare op vlen wlen vl wl.
Proof.
  revert wl. induction vl as [ | vitem vl IH]; intros wl Hitem.
  - simpl. apply f_equal, richcompare_of_negate.
  - destruct wl as [ | witem wl]; simpl.
    + apply f_equal, richcompare_of_negate.
    + pose proof (Hitem vitem witem op) as Hop.
      destruct (item_equal item_compare vitem witem) as [[] | e]; simpl;
        [ | | done].
      * apply IH. intros x y o Hx Hy. apply Hitem; by constructor.
      * destruct op; simpl in *; try done; apply Hop; by left.
Qed.

Lemma list_richcompare_negate (op : cmpop) (vl wl : list value) :
  (forall x y o, x ∈ vl -> y ∈ wl ->
                 item_compare (cmpop_negate o) x y
                 = negb <$> item_compare o x y) ->
  list_richcompare item_compare (cmpop_negate op) vl wl
  = negb <$> list_richcompare item_compare op vl wl.
Proof.
  intros Hvl. unfold list_richcompare.
  pose proof (list_first_difference_negate
                op (length vl) (length wl) vl wl Hvl) as Hloop.
  by destruct op; simpl in *;
    try destruct (negb (length vl =? length wl)%nat).
Qed.

Lemma list_first_difference_ordering_raised (o1 o2 : cmpop)
    (vlen wlen : nat) (vl wl : list value) :
  cmpop_ordering o1 = true ->
  cmpop_ordering o2 = true ->
  (forall x y, x ∈ vl -> y ∈ wl ->
               exc_raised (item_compare o1 x y)
               = exc_raised (item_compare o2 x y)) ->
  exc_raised (list_first_difference item_compare o1 vlen wlen vl wl)
  = exc_raised (list_first_difference item_compare o2 vlen wlen vl wl).
Proof.
  intros Ho1 Ho2. revert wl.
  induction vl as [ | vitem vl IH]; intros wl Hitem.
  - done.
  - destruct wl as [ | witem wl]; simpl; [done | ].
    pose proof (Hitem vitem witem) as Hraised.
    destruct (item_equal item_compare vitem witem) as [[] | e]; simpl;
      [ | | done].
    + apply IH. intros x y Hx Hy. apply Hitem; by constructor.
    + destruct o1, o2; try done; apply Hraised; by left.
Qed.
End ContainerEquality.

Lemma dict_keys_covered (a b : gmap string value) :
  size a = size b ->
  (forall k, is_Some (a !! k) -> is_Some (b !! k)) ->
  forall k, is_Some (b !! k) -> is_Some (a !! k).
Proof.
  intros Hsize Hsub k Hk.
  assert (dom a = dom b) as Hdom.
  { apply set_subseteq_size_eq.
    - intros j. rewrite !elem_of_dom. apply Hsub.
    - rewrite !size_dom. lia. }
  apply elem_of_dom. rewrite Hdom. by apply elem_of_dom.
Qed.

(** ** Rich comparison of values *)

Lemma richcompare_list (depth : nat) (op : cmpop) (i j : nat)
    (vl wl : list value) :
  richcompare depth op (VList i vl) (VList j wl)
  = list_richcompare (nested_richcompare depth) op vl wl.
Proof. by destruct depth. Qed.

Lemma richcompare_dict (depth : nat) (op : cmpop) (i j : nat)
    (a b : gmap string value) :
  richcompare depth op (VDict i a) (VDict j b)
  = match op with
    | Py_EQ => dict_equal (nested_richcompare depth) a b
    | Py_NE => negb <$> dict_equal (nested_richcompare depth) a b
    | _ => default_richcompare op false
    end.
Proof. by destruct depth. Qed.


(** [==] returns when one of the operands is nested no deeper than the
    interpreter allows. *)
Lemma richcompare_eq_defined (v : value) :
  forall depth w,
    (nesting v <= depth)%nat \/ (nesting w <= depth)%nat ->
    exists r, richcompare depth Py_EQ v w = Ok r.
Proof.
  induction v as [ | a | i a | i f | i s | i vl IH | i d IH]
    using value_nested_ind; intros depth w Hdepth.
  - by eexists.
  - simpl. destruct (as_long w); [by eexists | ]. destruct w; by eexists.
  - simpl. destruct (as_long w); [by eexists | ]. destruct w; by eexists.
  - simpl. destruct (as_long w); [by eexists | ]. destruct w; by eexists.
  - destruct w; by eexists.
  - destruct w as [ | | | | | j wl | ]; try (destruct depth; by eexists).
    rewrite richcompare_list. apply list_richcompare_defined.
    intros x y Hx Hy.
    pose proof (nesting_list_item i vl x Hx) as Hnx.
    pose proof (nesting_list_item j wl y Hy) as Hny.
    destruct depth as [ | d]; simpl; [lia | ].
    rewrite list.Forall_forall in IH. apply (IH x Hx). lia.
  - destruct w as [ | | | | | | j b]; try (destruct depth; by eexists).
    rewrite richcompare_dict.
    apply (dict_equal_true (nested_richcompare depth) d b).
    intros k x y Hx Hy.
    pose proof (nesting_dict_item i d k x Hx) as Hnx.
    pose proof (nesting_dict_item j b k y Hy) as Hny.
    destruct depth as [ | n]; simpl; [lia | ].
    apply (IH k x Hx). lia.
Qed.



(** An object compared with itself is equal to itself, NaN apart: the
    items of a container are then the same objects and are not compared. *)
Lemma richcompare_refl (depth : nat) (v : value) :
  richcompare depth Py_EQ v v = Ok (negb (is_nan v)).
Proof.
  destruct v as [ | a | i a | i f | i s | i vl | i d].
  - by destruct depth.
  - simpl. unfold long_richcompare. by rewrite Z.compare_refl.
  - simpl. unfold long_richcompare. by rewrite Z.compare_refl.
  - simpl. rewrite float_compare_refl. by destruct f.
  - simpl. unfold unicode_richcompare. by rewrite string_compare_refl.
  - rewrite richcompare_list. unfold list_richcompare.
    rewrite Nat.eqb_refl. simpl. apply list_first_difference_refl.
  - rewrite richcompare_dict. apply dict_equal_refl.
Qed.

Lemma dict_equal_swap (item_compare : cmpop -> value -> value -> exc bool)
    (a b : gmap string value) :
  (forall k x y, a !! k = Some x -> b !! k = Some y ->
                 exists r, item_compare Py_EQ x y = Ok r) ->
  (forall k x y, a !! k = Some x -> b !! k = Some y ->
                 item_compare Py_EQ y x = item_compare Py_EQ x y) ->
  dict_equal item_compare b a = dict_equal item_compare a b.
Proof.
  intros Hdef Hsym.
  assert (forall k x y, a !! k = Some x -> b !! k = Some y ->
            item_equal item_compare y x = item_equal item_compare x y)
    as Hsym'.
  { intros k x y Hx Hy. unfold item_equal.
    by rewrite (is_same_sym x y), (Hsym k x y Hx Hy). }
  destruct (dict_equal_true item_compare a b Hdef) as [[rab Hab] Habt].
  destruct (dict_equal_true item_compare b a) as [[rba Hba] Hbat].
  { intros k y x Hy Hx. destruct (Hdef k x y Hx Hy) as [r Hr].
    exists r. by rewrite (Hsym k x y Hx Hy). }
  assert (dict_equal item_compare b a = Ok true <->
          dict_equal item_compare a b = Ok true) as Hiff;
    [ | rewrite Hab, Hba in *; destruct Hiff as [Hl Hr];
        destruct rab, rba; try done;
        [by specialize (Hr eq_refl) | by specialize (Hl eq_refl)] ].
  rewrite Habt, Hbat.
  split; intros [Hsize Hall]; (split; [done | ]).
  - intros k x Hx.
    destruct (dict_keys_covered b a Hsize) with (k := k) as [y Hy]; [ | done | ].
    { intros j [y Hy]. destruct (Hall j y Hy) as (x' & Hx' & _). eauto. }
    destruct (Hall k y Hy) as (x' & Hx' & Hcmp).
    assert (x' = x) as -> by congruence.
    exists y. split; [done | ]. by rewrite <- (Hsym' k x y Hx Hy).
  - intros k y Hy.
    destruct (dict_keys_covered a b Hsize) with (k := k) as [x Hx]; [ | done | ].
    { intros j [x Hx]. destruct (Hall j x Hx) as (y' & Hy' & _). eauto. }
    destruct (Hall k x Hx) as (y' & Hy' & Hcmp).
    assert (y' = y) as -> by congruence.
    exists x. split; [done | ]. by rewrite (Hsym' k x y Hx Hy).
Qed.

Lemma float_richcompare_of_swap_opp (op : cmpop) (c : option comparison) :
  float_richcompare_of (cmpop_swap op) c
  = float_richcompare_of op (CompOpp <$> c).
Proof. by destruct c as [[] | ], op. Qed.

(** The reflected operation on the operands in the other order, when one
    of them is nested no deeper than the interpreter allows. *)
Lemma richcompare_swap (v : value) :
  forall depth op w,
    (nesting v <= depth)%nat \/ (nesting w <= depth)%nat ->
    richcompare depth (cmpop_swap op) w v = richcompare depth op v w.
Proof.
  induction v as [ | a | i a | i f | i s | i vl IH | i d IH]
    using value_nested_ind; intros depth op w Hdepth.
  - destruct w; simpl; apply default_richcompare_swap.
  - destruct w as [ | b | j b | j g | | | ]; simpl;
      try apply default_richcompare_swap.
    + unfold long_richcompare.
      rewrite (Z.compare_antisym (Z.b2z a)); by rewrite richcompare_of_swap.
    + unfold long_richcompare.
      rewrite (Z.compare_antisym (Z.b2z a)); by rewrite richcompare_of_swap.
    + by rewrite float_richcompare_of_swap_opp.
  - destruct w as [ | b | j b | j g | | | ]; simpl;
      try apply default_richcompare_swap.
    + unfold long_richcompare.
      rewrite (Z.compare_antisym a); by rewrite richcompare_of_swap.
    + unfold long_richcompare.
      rewrite (Z.compare_antisym a); by rewrite richcompare_of_swap.
    + by rewrite float_richcompare_of_swap_opp.
  - destruct w as [ | b | j b | j g | | | ]; simpl;
      try apply default_richcompare_swap.
    + unfold long_float_compare. by rewrite float_richcompare_of_swap.
    + unfold long_float_compare. by rewrite float_richcompare_of_swap.
    + rewrite (float_compare_antisym f g).
      by rewrite float_richcompare_of_swap.
  - destruct w as [ | | | | j t | | ]; simpl;
      try apply default_richcompare_swap.
    unfold unicode_richcompare.
    rewrite (String.compare_antisym t s). by rewrite richcompare_of_swap.
  - destruct w as [ | | | | | j wl | ];
      try (destruct depth; simpl; apply default_richcompare_swap).
    rewrite !richcompare_list. apply list_richcompare_swap.
    intros x y o Hx Hy.
    pose proof (nesting_list_item i vl x Hx) as Hnx.
    pose proof (nesting_list_item j wl y Hy) as Hny.
    destruct depth as [ | n]; simpl; [done | ].
    rewrite list.Forall_forall in IH. apply (IH x Hx). lia.
  - destruct w as [ | | | | | | j b];
      try (destruct depth; simpl; apply default_richcompare_swap).
    rewrite !richcompare_dict.
    assert (dict_equal (nested_richcompare depth) b d
            = dict_equal (nested_richcompare depth) d b) as Hswap.
    { apply dict_equal_swap.
      - intros k x y Hx Hy.
        pose proof (nesting_dict_item i d k x Hx) as Hnx.
        pose proof (nesting_dict_item j b k y Hy) as Hny.
        destruct depth as [ | n]; simpl; [lia | ].
        apply richcompare_eq_defined. lia.
      - intros k x y Hx Hy.
        pose proof (nesting_dict_item i d k x Hx) as Hnx.
        pose proof (nesting_dict_item j b k y Hy) as Hny.
        destruct depth as [ | n]; simpl; [done | ].
        apply (IH k x Hx n Py_EQ y). lia. }
    destruct op; simpl; try done; by rewrite Hswap.
Qed.

(** Each operator answers the opposite of its negation and raises when it
    does, on operands that hold no NaN. *)
Lemma richcompare_negate (v : value) :
  forall depth op w,
    nan_free v = true -> nan_free w = true ->
    richcompare depth (cmpop_negate op) v w
    = negb <$> richcompare depth op v w.
Proof.
  induction v as [ | a | i a | i f | i s | i vl IH | i d IH]
    using value_nested_ind; intros depth op w Hv Hw.
  - apply default_richcompare_negate.
  - simpl. destruct (as_long w) as [b | ].
    + simpl. apply f_equal, richcompare_of_negate.
    + destruct w as [ | | | j g | | | ]; try apply default_richcompare_negate.
      destruct g; try discriminate Hw; simpl;
        apply f_equal, richcompare_of_negate.
  - simpl. destruct (as_long w) as [b | ].
    + simpl. apply f_equal, richcompare_of_negate.
    + destruct w as [ | | | j g | | | ]; try apply default_richcompare_negate.
      destruct g; try discriminate Hw; simpl;
        apply f_equal, richcompare_of_negate.
  - simpl. destruct (as_long w) as [b | ].
    + destruct f; try discriminate Hv; simpl;
        apply f_equal, richcompare_of_negate.
    + destruct w as [ | | | j g | | | ]; try apply default_richcompare_negate.
      destruct (float_compare_defined f g) as [c Hc].
      * by destruct f.
      * by destruct g.
      * simpl. rewrite Hc. apply f_equal, richcompare_of_negate.
  - destruct w; simpl; try apply default_richcompare_negate.
    apply f_equal, richcompare_of_negate.
  - destruct w as [ | | | | | j wl | ];
      try (destruct depth; simpl; apply default_richcompare_negate).
    rewrite !richcompare_list. apply list_richcompare_negate.
    intros x y o Hx Hy.
    destruct depth as [ | n]; simpl; [done | ].
    rewrite list.Forall_forall in IH. apply (IH x Hx).
    + by apply (nan_free_list_item i vl).
    + by apply (nan_free_list_item j wl).
  - destruct w as [ | | | | | | j b];
      try (destruct depth; simpl; apply default_richcompare_negate).
    rewrite !richcompare_dict.
    destruct op; simpl; try done. by rewrite exc_fmap_negb_negb.
Qed.

(** The four ordering operators raise on the same operands. *)
Lemma richcompare_ordering_raised (o1 o2 : cmpop) (v : value) :
  cmpop_ordering o1 = true ->
  cmpop_ordering o2 = true ->
  forall depth w,
    exc_raised (richcompare depth o1 v w)
    = exc_raised (richcompare depth o2 v w).
Proof.
  intros Ho1 Ho2.
  induction v as [ | a | i a | i f | i s | i vl IH | i d IH]
    using value_nested_ind; intros depth w.
  - by destruct o1, o2.
  - simpl. destruct (as_long w); [done | ]. destruct w; by destruct o1, o2.
  - simpl. destruct (as_long w); [done | ]. destruct w; by destruct o1, o2.
  - simpl. destruct (as_long w); [done | ]. destruct w; by destruct o1, o2.
  - destruct w; simpl; by destruct o1, o2.
  - destruct w as [ | | | | | j wl | ];
      try (destruct depth; simpl; by destruct o1, o2).
    rewrite !richcompare_list.
    pose proof (list_first_difference_ordering_raised
                  (nested_richcompare depth) o1 o2
                  (length vl) (length wl) vl wl Ho1 Ho2) as Hloop.
    unfold list_richcompare.
    destruct o1, o2; try done; apply Hloop; intros x y Hx Hy;
      (destruct depth as [ | n]; simpl; [done | ]);
      rewrite list.Forall_forall in IH; apply (IH x Hx).
  - destruct w; destruct depth; simpl; by destruct o1, o2.
Qed.

(** ** The dispatch table *)

(** The opcode behind each operator's lambda. *)
Definition operator_opcode (op : ComparisonOperator) : cmpop :=
  match op with
  | EQUAL => Py_EQ
  | NOT_EQUAL => Py_NE
  | GREATER_THAN => Py_GT
  | LESS_THAN => Py_LT
  | GREATER_THAN_OR_EQUAL => Py_GE
  | LESS_THAN_OR_EQUAL => Py_LE
  end.

Lemma comparison_funcs_lookup (depth : nat) (op : ComparisonOperator) :
  comparison_funcs depth !! op
  = Some (richcompare depth (operator_opcode op)).
Proof. by destruct op. Qed.

Lemma compare_richcompare (depth : nat) (op : ComparisonOperator)
    (a b : value) :
  compare depth op a b = richcompare depth (operator_opcode op) a b.
Proof.
  unfold compare, dict_getitem. by rewrite comparison_funcs_lookup.
Qed.

(** The ordering operators raise as soon as one operand is [None]. *)
Definition is_ordering (op : ComparisonOperator) : bool :=
  match op with
  | EQUAL | NOT_EQUAL => false
  | _ => true
  end.

Lemma ordering_with_None_raises (depth : nat) (op : ComparisonOperator)
    (a : value) :
  is_ordering op = true ->
  compare depth op a VNone = Raise TypeError /\
  compare depth op VNone a = Raise TypeError.
Proof.
  intros Hop. rewrite !compare_richcompare.
  by destruct op; try discriminate Hop; destruct a, depth.
Qed.

(** ** Extraction *)

Lemma index_usable_Some (l : list value) (index : option Z) (i : Z) :
  index_usable l index = Some i ->
  index = Some i /\ 0 <= i < Z.of_nat (length l).
Proof.
  destruct index as [j | ]; simpl; [ | done].
  destruct (Z.leb_spec 0 j), (Z.ltb_spec j (Z.of_nat (length l)));
    simpl; try done.
  intros [= ->]. split; [done | lia].
Qed.

Lemma index_usable_None (l : list value) (index : option Z) :
  index_usable l index = None <->
  forall i, index = Some i -> ~ (0 <= i < Z.of_nat (length l)).
Proof.
  destruct index as [j | ]; simpl; [ | by split].
  destruct (Z.leb_spec 0 j), (Z.ltb_spec j (Z.of_nat (length l))); simpl.
  - split; [done | ]. intros Hno. destruct (Hno j eq_refl). lia.
  - split; [ | done]. intros _ i [= <-]. lia.
  - split; [ | done]. intros _ i [= <-]. lia.
  - split; [ | done]. intros _ i [= <-]. lia.
Qed.

Lemma list_getitem_in_range (l : list value) (i : Z) :
  0 <= i < Z.of_nat (length l) ->
  exists v, l !! Z.to_nat i = Some v /\ list_getitem l i = Ok v.
Proof.
  intros Hi. unfold list_getitem.
  destruct (Z.ltb_spec i 0); [lia | ].
  destruct (Z.leb_spec 0 i); [ | lia].
  destruct (Z.ltb_spec i (Z.of_nat (length l))); [simpl | lia].
  destruct (lookup_lt_is_Some_2 l (Z.to_nat i)) as [v Hv]; [lia | ].
  exists v. by rewrite Hv.
Qed.

Lemma list_getitem_first_empty : list_getitem [] 0 = Raise IndexError.
Proof. done. Qed.

Lemma list_getitem_first_cons (x : value) (l : list value) :
  list_getitem (x :: l) 0 = Ok x.
Proof.
  unfold list_getitem.
  destruct (Z.ltb_spec 0 (Z.of_nat (length (x :: l)))) as [_ | H]; [done | ].
  simpl in H. lia.
Qed.

(** The only way extraction raises: a key is looked up through the first
    element of an empty list. *)
Lemma get_value_raises (obj : value) (key : option string) (index : option Z)
    (e : exn) :
  get_value obj key index = Raise e <->
  (exists id, obj = VList id []) /\ is_Some key /\ e = IndexError.
Proof.
  split.
  - destruct obj as [ | | | | | id l | id d]; simpl; try done.
    destruct (index_usable l index) as [i | ] eqn:Hi.
    + apply index_usable_Some in Hi as [_ Hi].
      destruct (list_getitem_in_range l i Hi) as [v [_ ->]]. done.
    + destruct key as [k | ]; [ | done].
      destruct l as [ | x l].
      * rewrite list_getitem_first_empty. simpl. intros [= <-]. eauto.
      * rewrite list_getitem_first_cons. simpl. by destruct x.
  - intros ([id ->] & [k ->] & ->). unfold get_value.
    rewrite (proj2 (index_usable_None [] index)); [done | ].
    intros i _. simpl. lia.
Qed.

(** ** The generator *)

Definition success_outcome (result : bool) (output : value) : gen unit :=
  ([("result", VBool result); ("output", output)], Ok tt).

Definition failure_outcome : gen unit :=
  ([("result", VNone); ("output", VNone)], Ok tt).

Lemma run_operands_raise (depth : nat) (input_data : Input) (e : exn) :
  operands input_data = Raise e -> run depth input_data = ([], Raise e).
Proof. intros H. unfold run. by rewrite H. Qed.

Lemma run_compare_ok (depth : nat) (input_data : Input)
    (value1 value2 : value) (b : bool) :
  operands input_data = Ok (value1, value2) ->
  compare depth (operator input_data) value1 value2 = Ok b ->
  run depth input_data
  = success_outcome b (select_output input_data value1 b).
Proof.
  intros Hops Hcmp. unfold run. rewrite Hops.
  unfold eval, try_body, mbind, gen_bind. simpl. by rewrite Hcmp.
Qed.

Lemma run_compare_raise (depth : nat) (input_data : Input)
    (value1 value2 : value) (e : exn) :
  operands input_data = Ok (value1, value2) ->
  compare depth (operator input_data) value1 value2 = Raise e ->
  run depth input_data = failure_outcome.
Proof.
  intros Hops Hcmp. unfold run. rewrite Hops.
  unfold eval, try_body, mbind, gen_bind. simpl. by rewrite Hcmp.
Qed.

(** Once both operands are extracted, the generator ends in one of its two
    terminal outcomes. *)
Lemma run_terminal (depth : nat) (input_data : Input)
    (value1 value2 : value) :
  operands input_data = Ok (value1, value2) ->
  (exists b output, run depth input_data = success_outcome b output) \/
  run depth input_data = failure_outcome.
Proof.
  intros Hops.
  destruct (compare depth (operator input_data) value1 value2) as [b | e]
    eqn:Hcmp.
  - left. eauto using run_compare_ok.
  - right. eauto using run_compare_raise.
Qed.

(** Which requests make [run] raise instead of yielding: the input is the
    empty list and one of the two keys is given. *)
Lemma operands_raise (input_data : Input) (e : exn) :
  operands input_data = Raise e <->
  (exists id, input_object input_data = VList id []) /\
  (is_Some (value1_key input_data) \/ is_Some (value2_key input_data)) /\
  e = IndexError.
Proof.
  unfold operands. split.
  - destruct (isinstance_list (input_object input_data));
      (destruct (get_value _ (value1_key _) _) as [v1 | e1] eqn:Hv1; simpl;
       [destruct (get_value _ (value2_key _) _) as [v2 | e2] eqn:Hv2; simpl;
        [done | ] | ]);
      intros Hraise; injection Hraise as <-.
    + apply get_value_raises in Hv2 as (? & ? & ->). auto.
    + apply get_value_raises in Hv1 as (? & ? & ->). auto.
    + apply get_value_raises in Hv2 as (? & ? & ->). auto.
    + apply get_value_raises in Hv1 as (? & ? & ->). auto.
  - intros ([id Hobj] & Hkey & ->). rewrite Hobj. cbn [isinstance_list].
    assert (forall key index, is_Some key ->
              get_value (VList id []) key index = Raise IndexError) as Hraise
      by (intros; apply get_value_raises; eauto).
    destruct Hkey as [Hkey | Hkey].
    + by rewrite (Hraise _ _ Hkey).
    + rewrite (Hraise _ (value2_index input_data) Hkey).
      destruct (get_value (VList id []) (value1_key input_data)
                  (value1_index input_data)) as [v1 | e1] eqn:Hv1; [done | ].
      apply get_value_raises in Hv1. by destruct Hv1 as (_ & _ & ->).
Qed.

(** ** Requests used as examples *)

(** [sys.getrecursionlimit()] as the interpreter starts: no comparison
    can nest more comparisons than this. *)
Definition recursion_limit : nat := 1000.

Definition example_mapping : gmap string value :=
  {[ "value1" := VInt 2 10; "value2" := VInt 3 5 ]}.

(** The block's own [test_input]. *)
Definition scenario_A : Input :=
  {| input_object := VDict 1 example_mapping;
     value1_key := Some "value1"; value2_key := Some "value2";
     value1_index := None; value2_index := None;
     operator := GREATER_THAN;
     yes_value := VStr 4 "Greater"; no_value := VStr 5 "Not greater";
     passthrough := false |}.

Definition scenario_C : Input :=
  {| input_object := VList 1 [VDict 2 {[ "v" := VInt 3 1 ]};
                              VDict 4 {[ "v" := VInt 5 2 ]}];
     value1_key := None; value2_key := None;
     value1_index := Some 0; value2_index := Some 1;
     operator := EQUAL;
     yes_value := VNone; no_value := VNone;
     passthrough := false |}.

Definition scenario_E : Input :=
  {| input_object := VDict 1 {[ "a" := VStr 2 "x" ]};
     value1_key := Some "a"; value2_key := Some "missing";
     value1_index := None; value2_index := None;
     operator := GREATER_THAN;
     yes_value := VNone; no_value := VNone;
     passthrough := false |}.

Definition scenario_F : Input :=
  {| input_object := VDict 1 example_mapping;
     value1_key := Some "value1"; value2_key := Some "value2";
     value1_index := None; value2_index := None;
     operator := GREATER_THAN;
     yes_value := VStr 4 "Greater"; no_value := VStr 5 "Not greater";
     passthrough := true |}.

(** An empty list addressed by key. *)
Definition empty_list_by_key : Input :=
  {| input_object := VList 1 [];
     value1_key := Some "value"; value2_key := None;
     value1_index := None; value2_index := None;
     operator := EQUAL;
     yes_value := VNone; no_value := VNone;
     passthrough := false |}.

(** The request [input_data] on another input object. *)
Definition with_input_object (input_data : Input) (obj : value) : Input :=
  {| input_object := obj;
     value1_key := value1_key input_data;
     value2_key := value2_key input_data;
     value1_index := value1_index input_data;
     value2_index := value2_index input_data;
     operator := operator input_data;
     yes_value := yes_value input_data;
     no_value := no_value input_data;
     passthrough := passthrough input_data |}.

Example scenario_A_run :
  run recursion_limit scenario_A = success_outcome true (VStr 4 "Greater").
Proof. vm_compute. reflexivity. Qed.

Example scenario_B_run :
  run recursion_limit
      {| input_object := VDict 1 example_mapping;
         value1_key := Some "value1"; value2_key := Some "value2";
         value1_index := None; value2_index := None;
         operator := LESS_THAN;
         yes_value := VStr 4 "Greater"; no_value := VStr 5 "Not greater";
         passthrough := false |}
  = success_outcome false (VStr 5 "Not greater").
Proof. vm_compute. reflexivity. Qed.

Example scenario_D_run :
  run recursion_limit
      {| input_object := VStr 1 "hello";
         value1_key := None; value2_key := None;
         value1_index := None; value2_index := None;
         operator := EQUAL;
         yes_value := VNone; no_value := VNone;
         passthrough := false |}
  = success_outcome true (VStr 1 "hello").
Proof. vm_compute. reflexivity. Qed.

Example scenario_C_run :
  run recursion_limit scenario_C
  = success_outcome false (VDict 2 {[ "v" := VInt 3 1 ]}).
Proof. vm_compute. reflexivity. Qed.

(** * The claims *)

(** C1.  The claim is that no request makes [run] raise.  The operands are
    extracted before the [try] statement is entered, and [obj[0]] is read
    without a check that the list has a first element: on the empty list
    addressed by key, [run] yields nothing and [IndexError] leaves it. *)
Theorem run_empty_list_by_key_raises (depth : nat) :
  run depth empty_list_by_key = ([], Raise IndexError).
Proof. by apply run_operands_raise. Qed.

(** The requests on which [run] raises are exactly these; on every other
    request it ends in one of its two terminal outcomes. *)
Lemma run_raises_or_terminal (depth : nat) (input_data : Input) :
  ((exists id, input_object input_data = VList id []) /\
   (is_Some (value1_key input_data) \/ is_Some (value2_key input_data)) /\
   run depth input_data = ([], Raise IndexError)) \/
  (exists b output, run depth input_data = success_outcome b output) \/
  run depth input_data = failure_outcome.
Proof.
  destruct (operands input_data) as [[value1 value2] | e] eqn:Hops.
  - right. by apply (run_terminal depth input_data value1 value2).
  - left. pose proof Hops as Hraise.
    apply operands_raise in Hraise as (Hobj & Hkey & ->).
    auto using run_operands_raise.
Qed.

(** C2 (as amended).  On a mapping, extraction returns the value stored
    under the key when the key is present; when the key is not given or is
    not a key of the mapping it returns [None], not the mapping. *)
Theorem get_value_mapping (id : nat) (d : gmap string value)
    (key : option string) (index : option Z) :
  get_value (VDict id d) key index =
  Ok match key with
     | Some k => match d !! k with Some v => v | None => VNone end
     | None => VNone
     end.
Proof.
  simpl. destruct key as [k | ]; [ | done]. simpl. by destruct (d !! k).
Qed.

(** C2 as stated fails: a key that is absent from the mapping does not
    yield the mapping itself. *)
Lemma get_value_missing_key_is_not_mapping :
  ({[ "a" := VStr 2 "x" ]} : gmap string value) !! "missing" = None /\
  get_value (VDict 1 {[ "a" := VStr 2 "x" ]}) (Some "missing") None
    <> Ok (VDict 1 {[ "a" := VStr 2 "x" ]}).
Proof. split; [by vm_compute | by vm_compute]. Qed.

(** C3 (as amended).  On a list, when the index is absent or out of range
    and no key is given, extraction returns the list itself. *)
Theorem get_value_list_unaddressed (id : nat) (l : list value)
    (index : option Z) :
  (forall i, index = Some i -> ~ (0 <= i < Z.of_nat (length l))) ->
  get_value (VList id l) None index = Ok (VList id l).
Proof.
  intros Hindex. apply index_usable_None in Hindex.
  unfold get_value. by rewrite Hindex.
Qed.

Lemma get_value_list_unaddressed_witness :
  get_value (VList 1 [VInt 2 1]) None (Some 5) = Ok (VList 1 [VInt 2 1]).
Proof.
  apply (get_value_list_unaddressed 1 [VInt 2 1] (Some 5)).
  intros i [= <-]. simpl. lia.
Defined.

(** C3 as stated fails: with the index out of range and no key, the result
    is not [None]. *)
Lemma get_value_list_unaddressed_is_not_None :
  ~ (0 <= 5 < Z.of_nat (length [VInt 2 1])) /\
  get_value (VList 1 [VInt 2 1]) None (Some 5) <> Ok VNone /\
  get_value (VList 1 [VInt 2 1]) None None <> Ok VNone.
Proof. split; [simpl; lia | split; by vm_compute]. Qed.

(** C4.  When the comparison raises, the generator yields [result = None]
    then [output = None] and ends normally; Scenario E is such a request. *)
Theorem comparison_failure_yields_null_pair (depth : nat)
    (input_data : Input) (value1 value2 : value) (e : exn) :
  operands input_data = Ok (value1, value2) ->
  compare depth (operator input_data) value1 value2 = Raise e ->
  run depth input_data = ([("result", VNone); ("output", VNone)], Ok tt) /\
  run depth scenario_E = ([("result", VNone); ("output", VNone)], Ok tt).
Proof.
  intros Hops Hcmp. split.
  - by apply (run_compare_raise depth input_data value1 value2 e).
  - apply (run_compare_raise depth scenario_E (VStr 2 "x") VNone TypeError);
      [by vm_compute | ].
    rewrite compare_richcompare. by destruct depth.
Qed.

Lemma comparison_failure_yields_null_pair_witness :
  operands scenario_E = Ok (VStr 2 "x", VNone) /\
  compare recursion_limit GREATER_THAN (VStr 2 "x") VNone = Raise TypeError /\
  run recursion_limit scenario_E
  = ([("result", VNone); ("output", VNone)], Ok tt).
Proof.
  split; [by vm_compute | split; [by vm_compute | ]].
  apply (comparison_failure_yields_null_pair recursion_limit scenario_E
           (VStr 2 "x") VNone TypeError); by vm_compute.
Defined.

(** C5.  With [passthrough] set and a comparison that succeeds, [output]
    is the whole input object, whatever the result and whatever
    [yes_value] and [no_value] are. *)
Theorem passthrough_outputs_input_object (depth : nat) (input_data : Input)
    (value1 value2 : value) (result : bool) :
  passthrough input_data = true ->
  operands input_data = Ok (value1, value2) ->
  compare depth (operator input_data) value1 value2 = Ok result ->
  run depth input_data =
  ([("result", VBool result); ("output", input_object input_data)], Ok tt).
Proof.
  intros Hpass Hops Hcmp.
  rewrite (run_compare_ok depth input_data value1 value2 result Hops Hcmp).
  unfold success_outcome, select_output. rewrite Hpass. by destruct result.
Qed.

Lemma passthrough_outputs_input_object_witness :
  run recursion_limit scenario_F =
  ([("result", VBool true); ("output", VDict 1 example_mapping)], Ok tt).
Proof.
  apply (passthrough_outputs_input_object recursion_limit scenario_F
           (VInt 2 10) (VInt 3 5) true);
    by vm_compute.
Defined.

(** C6.  Without [passthrough] and with a comparison that succeeds,
    [output] is [yes_value] on a true result and [no_value] on a false one,
    unless that override is [None]: then it is [value1], the first
    operand. *)
Theorem override_or_value1 (depth : nat) (input_data : Input)
    (value1 value2 : value) (result : bool) :
  passthrough input_data = false ->
  operands input_data = Ok (value1, value2) ->
  compare depth (operator input_data) value1 value2 = Ok result ->
  run depth input_data =
  ([("result", VBool result);
    ("output",
     match (if result then yes_value input_data else no_value input_data) with
     | VNone => value1
     | override => override
     end)], Ok tt).
Proof.
  intros Hpass Hops Hcmp.
  rewrite (run_compare_ok depth input_data value1 value2 result Hops Hcmp).
  unfold success_outcome, select_output. rewrite Hpass.
  destruct result.
  - by destruct (yes_value input_data).
  - by destruct (no_value input_data).
Qed.

Lemma override_or_value1_witness :
  run recursion_limit scenario_C =
  ([("result", VBool false); ("output", VDict 2 {[ "v" := VInt 3 1 ]})],
   Ok tt).
Proof.
  apply (override_or_value1 recursion_limit scenario_C
           (VDict 2 {[ "v" := VInt 3 1 ]}) (VDict 4 {[ "v" := VInt 5 2 ]})
           false);
    by vm_compute.
Defined.

(** C7.  The override of the outcome is tested with [is not None], not for
    truth: a falsy override (the empty string, [0], [False]) is the output,
    and only [None] itself gives way to [value1]. *)
Theorem falsy_override_is_honored (depth : nat) (input_data : Input)
    (value1 value2 : value) (result : bool) (override : value) :
  passthrough input_data = false ->
  operands input_data = Ok (value1, value2) ->
  compare depth (operator input_data) value1 value2 = Ok result ->
  override = (if result then yes_value input_data else no_value input_data) ->
  truthy override = false ->
  run depth input_data =
  ([("result", VBool result);
    ("output", if is_None override then value1 else override)], Ok tt).
Proof.
  intros Hpass Hops Hcmp -> _.
  rewrite (run_compare_ok depth input_data value1 value2 result Hops Hcmp).
  unfold success_outcome, select_output. rewrite Hpass.
  destruct result.
  - by destruct (yes_value input_data).
  - by destruct (no_value input_data).
Qed.

(** Scenario A with a falsy [yes_value], and Scenario B likewise with a
    falsy [no_value]. *)
Definition scenario_A_yes (override : value) : Input :=
  {| input_object := VDict 1 example_mapping;
     value1_key := Some "value1"; value2_key := Some "value2";
     value1_index := None; value2_index := None;
     operator := GREATER_THAN;
     yes_value := override; no_value := VStr 5 "Not greater";
     passthrough := false |}.

Definition scenario_B_no (override : value) : Input :=
  {| input_object := VDict 1 example_mapping;
     value1_key := Some "value1"; value2_key := Some "value2";
     value1_index := None; value2_index := None;
     operator := LESS_THAN;
     yes_value := VStr 4 "Greater"; no_value := override;
     passthrough := false |}.

Lemma falsy_override_is_honored_witness :
  run recursion_limit (scenario_A_yes (VStr 4 EmptyString)) =
    ([("result", VBool true); ("output", VStr 4 EmptyString)], Ok tt) /\
  run recursion_limit (scenario_A_yes (VInt 4 0)) =
    ([("result", VBool true); ("output", VInt 4 0)], Ok tt) /\
  run recursion_limit (scenario_B_no (VBool false)) =
    ([("result", VBool false); ("output", VBool false)], Ok tt) /\
  run recursion_limit (scenario_A_yes VNone) =
    ([("result", VBool true); ("output", VInt 2 10)], Ok tt).
Proof.
  split; [ | split; [ | split]].
  - apply (falsy_override_is_honored recursion_limit
             (scenario_A_yes (VStr 4 EmptyString))
             (VInt 2 10) (VInt 3 5) true (VStr 4 EmptyString)); by vm_compute.
  - apply (falsy_override_is_honored recursion_limit
             (scenario_A_yes (VInt 4 0))
             (VInt 2 10) (VInt 3 5) true (VInt 4 0)); by vm_compute.
  - apply (falsy_override_is_honored recursion_limit
             (scenario_B_no (VBool false))
             (VInt 2 10) (VInt 3 5) false (VBool false)); by vm_compute.
  - apply (falsy_override_is_honored recursion_limit (scenario_A_yes VNone)
             (VInt 2 10) (VInt 3 5) true VNone); by vm_compute.
Defined.






(** C9.  Every operator of the enumeration is a key of the dispatch table,
    so [comparison_funcs[operator]] returns a function [f] and the [try]
    body raises exactly when [f(value1, value2)] does, with its
    exception. *)
Theorem dispatch_never_fails (depth : nat) :
  (forall op : ComparisonOperator, is_Some (comparison_funcs depth !! op)) /\
  (forall (input_data : Input) (value1 value2 : value),
     exists f : value -> value -> exc bool,
       dict_getitem (comparison_funcs depth) (operator input_data) = Ok f /\
       (try_body depth input_data value1 value2).2 =
       (f value1 value2 ≫= fun _ => Ok tt)).
Proof.
  split.
  - intros op. rewrite comparison_funcs_lookup. by eexists.
  - intros input_data value1 value2.
    exists (richcompare depth (operator_opcode (operator input_data))). split.
    + unfold dict_getitem. by rewrite comparison_funcs_lookup.
    + unfold try_body. rewrite compare_richcompare.
      by destruct (richcompare _ _ value1 value2).
Qed.

(** C10.  On a mapping, a key that stores [None] and a key that is absent
    are extracted to the same [None]; without [passthrough], dropping a
    key that stores [None] from the input changes nothing of what [run]
    yields. *)
Theorem stored_null_same_as_absent (depth : nat) (id id' : nat)
    (d d' : gmap string value) (k : string)
    (index index' : option Z) (input_data : Input) :
  d !! k = Some VNone ->
  d' !! k = None ->
  passthrough input_data = false ->
  get_value (VDict id d) (Some k) index = Ok VNone /\
  get_value (VDict id' d') (Some k) index' = Ok VNone /\
  run depth (with_input_object input_data (VDict id d)) =
  run depth (with_input_object input_data (VDict id' (delete k d))).
Proof.
  intros Hd Hd' Hpass.
  split; [by rewrite get_value_mapping, Hd | ].
  split; [by rewrite get_value_mapping, Hd' | ].
  assert (forall key, dict_get (delete k d) key = dict_get d key) as Hget.
  { intros [k' | ]; [ | done]. simpl.
    destruct (decide (k = k')) as [<- | Hne].
    - by rewrite lookup_delete_eq, Hd.
    - by rewrite lookup_delete_ne. }
  unfold run, operands. simpl. rewrite !Hget.
  unfold try_body, select_output. simpl. by rewrite Hpass.
Qed.

Lemma stored_null_same_as_absent_witness :
  get_value (VDict 1 {[ "a" := VStr 2 "x"; "b" := VNone ]}) (Some "b") None
    = Ok VNone /\
  get_value (VDict 3 {[ "a" := VStr 2 "x" ]}) (Some "b") None = Ok VNone /\
  run recursion_limit
      (with_input_object scenario_E
         (VDict 1 {[ "a" := VStr 2 "x"; "b" := VNone ]})) =
  run recursion_limit
      (with_input_object scenario_E
         (VDict 3 (delete "b" {[ "a" := VStr 2 "x"; "b" := VNone ]}))).
Proof.
  apply (stored_null_same_as_absent recursion_limit 1 3
           {[ "a" := VStr 2 "x"; "b" := VNone ]} {[ "a" := VStr 2 "x" ]} "b"
           None None scenario_E); by vm_compute.
Defined.

(** * Further properties of the block *)

(** ** Extraction from a list *)

(** X1.  On a list, an index inside [0, len) selects that element, whether
    or not a key is given as well: the index is tried before the key. *)
Theorem get_value_list_index (id : nat) (l : list value)
    (key : option string) (i : Z) (v : value) :
  0 <= i ->
  l !! Z.to_nat i = Some v ->
  get_value (VList id l) key (Some i) = Ok v.
Proof.
  intros Hi Hv.
  assert (0 <= i < Z.of_nat (length l)) as Hrange.
  { apply lookup_lt_Some in Hv. lia. }
  destruct (list_getitem_in_range l i Hrange) as (v' & Hv' & Hget).
  assert (v' = v) as -> by congruence.
  unfold get_value, index_usable.
  destruct (Z.leb_spec 0 i); [ | lia].
  destruct (Z.ltb_spec i (Z.of_nat (length l))); [ | lia].
  done.
Qed.

Lemma get_value_list_index_witness :
  get_value (VList 1 [VDict 2 {[ "k" := VInt 3 1 ]}; VInt 4 8])
            (Some "k") (Some 1)
  = Ok (VInt 4 8).
Proof.
  apply (get_value_list_index
           1 [VDict 2 {[ "k" := VInt 3 1 ]}; VInt 4 8] (Some "k") 1
           (VInt 4 8));
    [lia | reflexivity].
Defined.

(** X2.  On a non-empty list with a key and no usable index, the key is
    looked up in the first element only: a mapping gives its value under
    the key or [None], anything else gives [None]; the other elements are
    never read. *)
Theorem get_value_list_key_first (id : nat) (first : value)
    (rest : list value) (k : string) (index : option Z) :
  (forall i, index = Some i ->
             ~ (0 <= i < Z.of_nat (length (first :: rest)))) ->
  get_value (VList id (first :: rest)) (Some k) index =
  Ok match first with
     | VDict _ d => match d !! k with Some v => v | None => VNone end
     | _ => VNone
     end.
Proof.
  intros Hindex. apply index_usable_None in Hindex.
  unfold get_value. rewrite Hindex, list_getitem_first_cons. simpl.
  by destruct first.
Qed.

Lemma get_value_list_key_first_witness :
  get_value (VList 1 [VDict 2 {[ "v" := VInt 3 1 ]};
                      VDict 4 {[ "v" := VInt 5 2 ]}])
            (Some "v") (Some 2) = Ok (VInt 3 1) /\
  get_value (VList 1 [VInt 2 3; VDict 4 {[ "v" := VInt 5 2 ]}])
            (Some "v") None
  = Ok VNone.
Proof.
  split.
  - rewrite (get_value_list_key_first
               1 (VDict 2 {[ "v" := VInt 3 1 ]})
               [VDict 4 {[ "v" := VInt 5 2 ]}]
               "v" (Some 2)); [by vm_compute | ].
    intros i [= <-]. simpl. lia.
  - apply (get_value_list_key_first
             1 (VInt 2 3) [VDict 4 {[ "v" := VInt 5 2 ]}] "v" None).
    by intros i.
Defined.

(** X3.  An index outside [0, len) counts as no index at all: a negative
    index never selects from the end of the list, and an index past the
    end is no [IndexError] of its own. *)
Theorem get_value_unusable_index (id : nat) (l : list value)
    (key : option string) (i : Z) :
  ~ (0 <= i < Z.of_nat (length l)) ->
  get_value (VList id l) key (Some i) = get_value (VList id l) key None.
Proof.
  intros Hi. unfold get_value.
  rewrite (proj2 (index_usable_None l (Some i))); [done | ].
  by intros j [= <-].
Qed.

Lemma get_value_unusable_index_witness :
  get_value (VList 1 [VInt 2 1; VInt 3 2]) None (Some (-1))
  = get_value (VList 1 [VInt 2 1; VInt 3 2]) None None.
Proof.
  apply (get_value_unusable_index 1 [VInt 2 1; VInt 3 2] None (-1)).
  simpl. lia.
Defined.

(** ** When [run] raises *)

(** X4.  An exception leaves [run] if and only if the input is the empty
    list and one of the two keys is given; the exception is [IndexError],
    and [run] has then yielded nothing. *)
Theorem run_raises_iff (depth : nat) (input_data : Input) (e : exn) :
  ((run depth input_data).2 = Raise e <->
   (exists id, input_object input_data = VList id []) /\
   (is_Some (value1_key input_data) \/ is_Some (value2_key input_data)) /\
   e = IndexError) /\
  (run depth input_data = ([], Raise e) <->
   (exists id, input_object input_data = VList id []) /\
   (is_Some (value1_key input_data) \/ is_Some (value2_key input_data)) /\
   e = IndexError).
Proof.
  assert ((run depth input_data).2 = Raise e ->
          operands input_data = Raise e) as Hraise.
  { destruct (operands input_data) as [[value1 value2] | e'] eqn:Hops.
    - destruct (run_terminal depth input_data value1 value2 Hops)
        as [(b & output & ->) | ->]; done.
    - rewrite (run_operands_raise depth input_data e' Hops). simpl.
      by intros [= ->]. }
  split; split.
  - intros Hrun. by apply operands_raise, Hraise.
  - intros Hcond. apply operands_raise in Hcond.
    by rewrite (run_operands_raise depth input_data e Hcond).
  - intros Hrun. apply operands_raise, Hraise. by rewrite Hrun.
  - intros Hcond. apply operands_raise in Hcond.
    by apply run_operands_raise.
Qed.

(** ** Addressing that is not looked at *)

(** The request [input_data] with other indices. *)
Definition with_indices (input_data : Input) (index1 index2 : option Z)
    : Input :=
  {| input_object := input_object input_data;
     value1_key := value1_key input_data;
     value2_key := value2_key input_data;
     value1_index := index1;
     value2_index := index2;
     operator := operator input_data;
     yes_value := yes_value input_data;
     no_value := no_value input_data;
     passthrough := passthrough input_data |}.

(** X5.  When the input is not a list, the two indices have no effect on
    what [run] yields. *)
Theorem run_ignores_indices (depth : nat) (input_data : Input)
    (index1 index2 : option Z) :
  isinstance_list (input_object input_data) = false ->
  run depth (with_indices input_data index1 index2) = run depth input_data.
Proof.
  intros Hobj. unfold run, operands. simpl. rewrite Hobj. done.
Qed.

Lemma run_ignores_indices_witness :
  run recursion_limit (with_indices scenario_A (Some 0) (Some 7))
  = run recursion_limit scenario_A.
Proof.
  apply (run_ignores_indices recursion_limit scenario_A (Some 0) (Some 7)).
  reflexivity.
Defined.

(** X6.  When the input is neither a list nor a mapping, both operands are
    the input itself, whatever keys and indices are given.  [EQUAL] then
    yields [True] and the output follows [yes_value]; the one exception is
    an input that is NaN, which is not equal to itself: the result is
    [False] and the output follows [no_value]. *)
Theorem run_scalar_equal (depth : nat) (input_data : Input) :
  isinstance_list (input_object input_data) = false ->
  (forall id d, input_object input_data <> VDict id d) ->
  operator input_data = EQUAL ->
  operands input_data = Ok (input_object input_data, input_object input_data)
  /\
  run depth input_data =
  ([("result", VBool (negb (is_nan (input_object input_data))));
    ("output",
     if passthrough input_data then input_object input_data
     else if is_None (if is_nan (input_object input_data)
                      then no_value input_data else yes_value input_data)
          then input_object input_data
          else if is_nan (input_object input_data)
               then no_value input_data else yes_value input_data)], Ok tt).
Proof.
  intros Hlist Hdict Hop.
  assert (operands input_data
          = Ok (input_object input_data, input_object input_data)) as Hops.
  { unfold operands. rewrite Hlist.
    destruct (input_object input_data) as [ | | | | | | id d]; try done.
    by destruct (Hdict id d). }
  split; [done | ].
  rewrite (run_compare_ok depth input_data _ _
             (negb (is_nan (input_object input_data))) Hops).
  - unfold success_outcome, select_output.
    by destruct (is_nan (input_object input_data)),
         (passthrough input_data), (is_None (yes_value input_data)),
         (is_None (no_value input_data)).
  - rewrite Hop, compare_richcompare. apply richcompare_refl.
Qed.

Lemma run_scalar_equal_witness :
  run recursion_limit
      (with_input_object (with_indices scenario_C (Some 3) None)
                         (VStr 1 "hello"))
  = ([("result", VBool true); ("output", VStr 1 "hello")], Ok tt) /\
  run recursion_limit
      (with_input_object (with_indices scenario_C (Some 3) None)
                         (VFloat 1 S754_nan))
  = ([("result", VBool false); ("output", VFloat 1 S754_nan)], Ok tt).
Proof.
  split.
  - apply (run_scalar_equal recursion_limit
             (with_input_object (with_indices scenario_C (Some 3) None)
                                (VStr 1 "hello")));
      [reflexivity | intros id d; discriminate | reflexivity].
  - apply (run_scalar_equal recursion_limit
             (with_input_object (with_indices scenario_C (Some 3) None)
                                (VFloat 1 S754_nan)));
      [reflexivity | intros id d; discriminate | reflexivity].
Defined.

(** X7.  When both operands are addressed the same way, they are one and
    the same object.  [EQUAL] then yields [True], however deep the object
    is nested and even when it holds a NaN, since the items of an object
    compared with itself are not compared; the one exception is an operand
    that is itself NaN, for which the result is [False]. *)
Theorem run_same_address_equal (depth : nat) (input_data : Input)
    (value1 value2 : value) :
  value1_key input_data = value2_key input_data ->
  value1_index input_data = value2_index input_data ->
  operator input_data = EQUAL ->
  operands input_data = Ok (value1, value2) ->
  value1 = value2 /\
  run depth input_data =
  ([("result", VBool (negb (is_nan value1)));
    ("output", select_output input_data value1 (negb (is_nan value1)))],
   Ok tt).
Proof.
  intros Hkey Hindex Hop Hops.
  assert (value1 = value2) as <-.
  { unfold operands in Hops. rewrite Hkey, Hindex in Hops.
    destruct (isinstance_list (input_object input_data));
      destruct (get_value _ _ _); simpl in Hops; congruence. }
  split; [done | ].
  rewrite (run_compare_ok depth input_data value1 value1
             (negb (is_nan value1)) Hops); [done | ].
  rewrite Hop, compare_richcompare. apply richcompare_refl.
Qed.

(** A mapping addressed twice by the key ["a"], with [EQUAL]. *)
Definition same_key_request (obj : value) : Input :=
  {| input_object := obj;
     value1_key := Some "a"; value2_key := Some "a";
     value1_index := None; value2_index := None;
     operator := EQUAL;
     yes_value := VNone; no_value := VNone;
     passthrough := false |}.

Lemma run_same_address_equal_witness :
  (VFloat 2 S754_nan = VFloat 2 S754_nan /\
   run recursion_limit
       (same_key_request (VDict 1 {[ "a" := VFloat 2 S754_nan ]}))
   = ([("result", VBool false); ("output", VFloat 2 S754_nan)], Ok tt)) /\
  (VList 2 [VFloat 3 S754_nan] = VList 2 [VFloat 3 S754_nan] /\
   run recursion_limit
       (same_key_request (VDict 1 {[ "a" := VList 2 [VFloat 3 S754_nan] ]}))
   = ([("result", VBool true); ("output", VList 2 [VFloat 3 S754_nan])],
      Ok tt)).
Proof.
  split.
  - apply (run_same_address_equal recursion_limit
             (same_key_request (VDict 1 {[ "a" := VFloat 2 S754_nan ]}))
             (VFloat 2 S754_nan) (VFloat 2 S754_nan)); by vm_compute.
  - apply (run_same_address_equal recursion_limit
             (same_key_request
                (VDict 1 {[ "a" := VList 2 [VFloat 3 S754_nan] ]}))
             (VList 2 [VFloat 3 S754_nan]) (VList 2 [VFloat 3 S754_nan]));
      by vm_compute.
Defined.

(** ** The six comparisons against each other *)

(** X8.  When one of the operands is nested no deeper than the
    interpreter still allows, exchanging the operands mirrors the operator:
    [a > b] is [b < a] and [a >= b] is [b <= a], while [==] and [!=] do
    not depend on the order of the operands; this holds for the answer and
    for the [TypeError] alike. *)
Theorem compare_swap_operands (depth : nat) (a b : value) :
  (nesting a <= depth)%nat \/ (nesting b <= depth)%nat ->
  compare depth GREATER_THAN a b = compare depth LESS_THAN b a /\
  compare depth GREATER_THAN_OR_EQUAL a b
  = compare depth LESS_THAN_OR_EQUAL b a /\
  compare depth EQUAL a b = compare depth EQUAL b a /\
  compare depth NOT_EQUAL a b = compare depth NOT_EQUAL b a.
Proof.
  intros Hdepth. rewrite !compare_richcompare. cbn [operator_opcode].
  pose proof (richcompare_swap a depth Py_GT b Hdepth) as Hgt.
  pose proof (richcompare_swap a depth Py_GE b Hdepth) as Hge.
  pose proof (richcompare_swap a depth Py_EQ b Hdepth) as Heq.
  pose proof (richcompare_swap a depth Py_NE b Hdepth) as Hne.
  cbn [cmpop_swap] in *. by rewrite Hgt, Hge, Heq, Hne.
Qed.

Lemma compare_swap_operands_witness :
  compare recursion_limit GREATER_THAN
    (VList 1 [VInt 2 1; VFloat 3 S754_nan]) (VList 4 [VInt 5 1; VInt 6 2])
  = compare recursion_limit LESS_THAN
      (VList 4 [VInt 5 1; VInt 6 2]) (VList 1 [VInt 2 1; VFloat 3 S754_nan])
  /\
  compare recursion_limit GREATER_THAN_OR_EQUAL
    (VList 1 [VInt 2 1; VFloat 3 S754_nan]) (VList 4 [VInt 5 1; VInt 6 2])
  = compare recursion_limit LESS_THAN_OR_EQUAL
      (VList 4 [VInt 5 1; VInt 6 2]) (VList 1 [VInt 2 1; VFloat 3 S754_nan])
  /\
  compare recursion_limit EQUAL
    (VList 1 [VInt 2 1; VFloat 3 S754_nan]) (VList 4 [VInt 5 1; VInt 6 2])
  = compare recursion_limit EQUAL
      (VList 4 [VInt 5 1; VInt 6 2]) (VList 1 [VInt 2 1; VFloat 3 S754_nan])
  /\
  compare recursion_limit NOT_EQUAL
    (VList 1 [VInt 2 1; VFloat 3 S754_nan]) (VList 4 [VInt 5 1; VInt 6 2])
  = compare recursion_limit NOT_EQUAL
      (VList 4 [VInt 5 1; VInt 6 2]) (VList 1 [VInt 2 1; VFloat 3 S754_nan]).
Proof.
  apply (compare_swap_operands recursion_limit
           (VList 1 [VInt 2 1; VFloat 3 S754_nan])
           (VList 4 [VInt 5 1; VInt 6 2])).
  left. apply Nat.leb_le. reflexivity.
Defined.

(** X9.  On operands that hold no NaN, [<=] raises exactly when [>] does
    and otherwise answers the opposite; likewise [>=] and [<]. *)
Theorem compare_negated_ordering (depth : nat) (a b : value) :
  nan_free a = true ->
  nan_free b = true ->
  compare depth LESS_THAN_OR_EQUAL a b
  = negb <$> compare depth GREATER_THAN a b /\
  compare depth GREATER_THAN_OR_EQUAL a b
  = negb <$> compare depth LESS_THAN a b.
Proof.
  intros Ha Hb. rewrite !compare_richcompare. cbn [operator_opcode]. split.
  - apply (richcompare_negate a depth Py_GT b Ha Hb).
  - apply (richcompare_negate a depth Py_LT b Ha Hb).
Qed.

Lemma compare_negated_ordering_witness :
  compare recursion_limit LESS_THAN_OR_EQUAL
    (VList 1 [VInt 2 1; VFloat 3 (S754_finite false 3 (-1))])
    (VList 4 [VBool true; VInt 5 2])
  = negb <$> compare recursion_limit GREATER_THAN
               (VList 1 [VInt 2 1; VFloat 3 (S754_finite false 3 (-1))])
               (VList 4 [VBool true; VInt 5 2]) /\
  compare recursion_limit GREATER_THAN_OR_EQUAL
    (VList 1 [VInt 2 1; VFloat 3 (S754_finite false 3 (-1))])
    (VList 4 [VBool true; VInt 5 2])
  = negb <$> compare recursion_limit LESS_THAN
               (VList 1 [VInt 2 1; VFloat 3 (S754_finite false 3 (-1))])
               (VList 4 [VBool true; VInt 5 2]).
Proof.
  apply (compare_negated_ordering recursion_limit
           (VList 1 [VInt 2 1; VFloat 3 (S754_finite false 3 (-1))])
           (VList 4 [VBool true; VInt 5 2])); reflexivity.
Defined.

(** X10.  Whether an ordering comparison can be evaluated does not depend
    on which of the four ordering operators is asked: on given operands
    they raise together or answer together. *)
Theorem ordering_operators_raise_together (depth : nat)
    (op1 op2 : ComparisonOperator) (a b : value) :
  is_ordering op1 = true ->
  is_ordering op2 = true ->
  exc_raised (compare depth op1 a b) = exc_raised (compare depth op2 a b).
Proof.
  intros Hop1 Hop2. rewrite !compare_richcompare.
  apply richcompare_ordering_raised.
  - by destruct op1.
  - by destruct op2.
Qed.

Lemma ordering_operators_raise_together_witness :
  exc_raised (compare recursion_limit GREATER_THAN
                (VList 1 [VInt 2 1; VStr 3 "a"])
                (VList 4 [VInt 5 1; VInt 6 2]))
  = exc_raised (compare recursion_limit LESS_THAN_OR_EQUAL
                  (VList 1 [VInt 2 1; VStr 3 "a"])
                  (VList 4 [VInt 5 1; VInt 6 2])).
Proof.
  apply (ordering_operators_raise_together recursion_limit
           GREATER_THAN LESS_THAN_OR_EQUAL);
    reflexivity.
Defined.

(** ** Operands by type *)

(** The type of a value, with [bool], [int] and [float] counted as
    numbers. *)
Inductive kind : Type := KNone | KNumber | KStr | KList | KDict.

Definition value_kind (v : value) : kind :=
  match v with
  | VNone => KNone
  | VBool _ | VInt _ _ | VFloat _ _ => KNumber
  | VStr _ _ => KStr
  | VList _ _ => KList
  | VDict _ _ => KDict
  end.

(** X11.  Operands of different types are never equal, and no ordering
    operator applies to them: [EQUAL] is [False], [NOT_EQUAL] is [True],
    and the four others raise [TypeError]. *)
Theorem compare_different_types (depth : nat) (op : ComparisonOperator)
    (a b : value) :
  value_kind a <> value_kind b ->
  compare depth op a b =
  match op with
  | EQUAL => Ok false
  | NOT_EQUAL => Ok true
  | _ => Raise TypeError
  end.
Proof.
  intros Hkind. rewrite compare_richcompare.
  destruct op, a, b; simpl; try done; try (by destruct Hkind);
    by destruct depth.
Qed.

Lemma compare_different_types_witness :
  compare recursion_limit EQUAL (VStr 1 "10") (VInt 2 10) = Ok false /\
  compare recursion_limit LESS_THAN (VStr 1 "10") (VInt 2 10)
  = Raise TypeError.
Proof.
  split.
  - apply (compare_different_types recursion_limit EQUAL
             (VStr 1 "10") (VInt 2 10)).
    discriminate.
  - apply (compare_different_types recursion_limit LESS_THAN
             (VStr 1 "10") (VInt 2 10)).
    discriminate.
Defined.

Lemma richcompare_of_Z (x y : Z) :
  richcompare_of Py_EQ (x ?= y) = (x =? y) /\
  richcompare_of Py_NE (x ?= y) = negb (x =? y) /\
  richcompare_of Py_LT (x ?= y) = (x <? y) /\
  richcompare_of Py_LE (x ?= y) = (x <=? y) /\
  richcompare_of Py_GT (x ?= y) = (y <? x) /\
  richcompare_of Py_GE (x ?= y) = (y <=? x).
Proof.
  destruct (Z.compare_spec x y); simpl;
    destruct (Z.eqb_spec x y), (Z.ltb_spec x y), (Z.leb_spec x y),
             (Z.ltb_spec y x), (Z.leb_spec y x);
    simpl; repeat split; (done || lia).
Qed.

(** X12.  Two numbers are compared by their integer values, a [bool]
    counting as 0 or 1, and none of the six operators raises on them. *)
Theorem compare_numbers (depth : nat) (a b : value) (x y : Z) :
  as_long a = Some x ->
  as_long b = Some y ->
  compare depth EQUAL a b = Ok (x =? y) /\
  compare depth NOT_EQUAL a b = Ok (negb (x =? y)) /\
  compare depth LESS_THAN a b = Ok (x <? y) /\
  compare depth LESS_THAN_OR_EQUAL a b = Ok (x <=? y) /\
  compare depth GREATER_THAN a b = Ok (y <? x) /\
  compare depth GREATER_THAN_OR_EQUAL a b = Ok (y <=? x).
Proof.
  intros Ha Hb. rewrite !compare_richcompare. cbn [operator_opcode].
  destruct (richcompare_of_Z x y) as (Heq & Hne & Hlt & Hle & Hgt & Hge).
  assert (forall o, richcompare depth o a b
                    = Ok (richcompare_of o (x ?= y))) as Hcmp.
  { intros o. destruct a; try discriminate Ha; simpl in *;
      rewrite Hb; injection Ha as <-; done. }
  rewrite !Hcmp. by rewrite Heq, Hne, Hlt, Hle, Hgt, Hge.
Qed.

Lemma compare_numbers_witness :
  compare recursion_limit EQUAL (VBool true) (VInt 1 1) = Ok true /\
  compare recursion_limit NOT_EQUAL (VBool true) (VInt 1 1) = Ok false /\
  compare recursion_limit LESS_THAN (VBool true) (VInt 1 1) = Ok false /\
  compare recursion_limit LESS_THAN_OR_EQUAL (VBool true) (VInt 1 1)
  = Ok true /\
  compare recursion_limit GREATER_THAN (VBool true) (VInt 1 1) = Ok false /\
  compare recursion_limit GREATER_THAN_OR_EQUAL (VBool true) (VInt 1 1)
  = Ok true.
Proof.
  apply (compare_numbers recursion_limit (VBool true) (VInt 1 1) 1 1);
    reflexivity.
Defined.

(** [None] and mappings have no order. *)
Definition unordered (v : value) : bool :=
  match v with
  | VNone | VDict _ _ => true
  | _ => false
  end.

Lemma richcompare_unordered (depth : nat) (op : cmpop) (v w : value) :
  cmpop_ordering op = true ->
  unordered v || unordered w = true ->
  richcompare depth op v w = Raise TypeError.
Proof.
  intros Hop Hvw. destruct op; try discriminate Hop;
    destruct v, w; simpl in *; try done; by destruct depth.
Qed.

(** X13.  With an ordering operator, an operand that is [None] (a missing
    key, for one) or a mapping makes [run] yield the null pair, whatever
    the other operand is and whatever [passthrough] and the overrides
    are. *)
Theorem run_ordering_unordered_operand (depth : nat) (input_data : Input)
    (value1 value2 : value) :
  is_ordering (operator input_data) = true ->
  operands input_data = Ok (value1, value2) ->
  unordered value1 || unordered value2 = true ->
  run depth input_data = ([("result", VNone); ("output", VNone)], Ok tt).
Proof.
  intros Hop Hops Hun.
  apply (run_compare_raise depth input_data value1 value2 TypeError Hops).
  rewrite compare_richcompare. apply richcompare_unordered; [ | done].
  by destruct (operator input_data).
Qed.

Lemma run_ordering_unordered_operand_witness :
  run recursion_limit
      (with_input_object scenario_F
         (VDict 1 {[ "value1" := VDict 2 ∅; "value2" := VInt 3 5 ]}))
  = ([("result", VNone); ("output", VNone)], Ok tt).
Proof.
  apply (run_ordering_unordered_operand recursion_limit
           (with_input_object scenario_F
              (VDict 1 {[ "value1" := VDict 2 ∅; "value2" := VInt 3 5 ]}))
           (VDict 2 ∅) (VInt 3 5)); by vm_compute.
Defined.

(** ** What the result depends on *)

(** The request [input_data] with other output settings. *)
Definition with_output_settings (input_data : Input) (yes no : value)
    (pass : bool) : Input :=
  {| input_object := input_object input_data;
     value1_key := value1_key input_data;
     value2_key := value2_key input_data;
     value1_index := value1_index input_data;
     value2_index := value2_index input_data;
     operator := operator input_data;
     yes_value := yes;
     no_value := no;
     passthrough := pass |}.

(** X14.  [yes_value], [no_value] and [passthrough] bear on the output
    only: the first pair yielded (the result) and the way the generator
    ends are the same whatever they are. *)
Theorem result_ignores_output_settings (depth : nat) (input_data : Input)
    (yes no : value) (pass : bool) :
  head (run depth (with_output_settings input_data yes no pass)).1
  = head (run depth input_data).1 /\
  (run depth (with_output_settings input_data yes no pass)).2
  = (run depth input_data).2.
Proof.
  assert (operands (with_output_settings input_data yes no pass)
          = operands input_data) as Hsame by done.
  destruct (operands input_data) as [[value1 value2] | e] eqn:Hops.
  - destruct (compare depth (operator input_data) value1 value2) as [b | e]
      eqn:Hcmp.
    + rewrite (run_compare_ok depth input_data value1 value2 b Hops Hcmp).
      by rewrite (run_compare_ok depth
                    (with_output_settings input_data yes no pass)
                    value1 value2 b Hsame Hcmp).
    + rewrite (run_compare_raise depth input_data value1 value2 e Hops Hcmp).
      by rewrite (run_compare_raise depth
                    (with_output_settings input_data yes no pass)
                    value1 value2 e Hsame Hcmp).
  - rewrite (run_operands_raise depth input_data e Hops).
    by rewrite (run_operands_raise depth
                  (with_output_settings input_data yes no pass) e Hsame).
Qed.

(** ** The operator labels *)

(** X15.  The six labels are pairwise distinct: a label denotes a member
    exactly when it is that member's value, so reading a member back from
    its value returns the member, and every other string is refused. *)
Theorem ComparisonOperator_call_value (label : string)
    (op : ComparisonOperator) :
  ComparisonOperator_call label = Some op <->
  ComparisonOperator_value op = label.
Proof.
  split.
  - cbv [ComparisonOperator_call ComparisonOperator_members List.find
          ComparisonOperator_value].
    repeat match goal with
           | |- context [String.eqb ?s label] =>
               destruct (String.eqb_spec s label) as [<- | _];
               [by intros [= <-] | ]
           end.
    done.
  - intros <-. by destruct op.
Qed.

(** The comparison a Python comparison token stands for. *)
Definition token_opcode (token : string) : option cmpop :=
  if String.eqb token "==" then Some Py_EQ
  else if String.eqb token "!=" then Some Py_NE
  else if String.eqb token ">" then Some Py_GT
  else if String.eqb token "<" then Some Py_LT
  else if String.eqb token ">=" then Some Py_GE
  else if String.eqb token "<=" then Some Py_LE
  else None.

(** X16.  Each member's label is the Python token of the comparison its
    entry in the dispatch table performs: the member read from a label
    compares with that very operator. *)
Theorem label_matches_comparison (label : string) (op : ComparisonOperator) :
  ComparisonOperator_call label = Some op ->
  exists o : cmpop,
    token_opcode label = Some o /\
    forall (depth : nat) (a b : value),
      compare depth op a b = richcompare depth o a b.
Proof.
  intros Hcall.
  assert (ComparisonOperator_value op = label) as <-.
  { cbv [ComparisonOperator_call ComparisonOperator_members List.find
          ComparisonOperator_value] in Hcall.
    repeat match type of Hcall with
           | context [String.eqb ?s label] =>
               destruct (String.eqb_spec s label) as [<- | _];
               [by injection Hcall as <- | ]
           end.
    done. }
  exists (operator_opcode op). split; [by destruct op | ].
  intros depth a b. apply compare_richcompare.
Qed.

Lemma label_matches_comparison_witness :
  exists o : cmpop,
    token_opcode ">=" = Some o /\
    forall (depth : nat) (a b : value),
      compare depth GREATER_THAN_OR_EQUAL a b = richcompare depth o a b.
Proof.
  apply (label_matches_comparison ">=" GREATER_THAN_OR_EQUAL). reflexivity.
Defined.

(** ** The block's own test *)

(** X17.  The block passes the test it declares: on [test_input], [run]
    yields [test_output] and ends normally. *)
Theorem run_test_input (depth : nat) :
  exists input_data : Input,
    test_input = Some input_data /\
    run depth input_data = (test_output, Ok tt).
Proof.
  eexists. split; [reflexivity | ].
  by rewrite (run_compare_ok depth _ (VInt 2 10) (VInt 3 5) true).
Qed.
